(** * E-Library Organizer: the document classifier and the library views

    A shallow embedding of [app.py].  Python [str] values are sequences of
    code points; the text operations the application calls on them
    ([in], [split], [strip], slicing, [replace]) are defined here, and the
    three operations that depend on the Unicode database ([str.lower],
    [str.isspace], [str.isdigit]) as well as [pathlib]'s [stem] are taken
    from a class, so that every statement holds for whichever tables the
    interpreter ships.  The two collaborators (the PDF reader and the
    catalog service) are inputs: each of their calls either returns a value
    or raises. *)

From Stdlib Require Import List NArith Bool Arith Lia Ascii Sorted Permutation.
From Stdlib Require String.
Import ListNotations String.StringSyntax.

Set Implicit Arguments.

(** ** Text *)

Definition char := N.
Definition str := list char.

(** A literal of the source, as its code points. *)
Definition lit (s : String.string) : str :=
  map N_of_ascii (String.list_ascii_of_string s).
Arguments lit s%_string_scope.

Fixpoint str_eqb (a b : str) : bool :=
  match a, b with
  | [], [] => true
  | x :: a', y :: b' => N.eqb x y && str_eqb a' b'
  | _, _ => false
  end.

Definition opt_str_eqb (a b : option str) : bool :=
  match a, b with
  | None, None => true
  | Some x, Some y => str_eqb x y
  | _, _ => false
  end.

(** [s.startswith(p)] *)
Fixpoint startswith (p s : str) : bool :=
  match p, s with
  | [], _ => true
  | x :: p', y :: s' => N.eqb x y && startswith p' s'
  | _ :: _, [] => false
  end.

(** [kw in s] on two strings: [kw] occurs in [s] as a contiguous run. *)
Fixpoint contains (s kw : str) : bool :=
  startswith kw s ||
  match s with
  | [] => false
  | _ :: s' => contains s' kw
  end.

(** [s.split(sep)] for a one-character separator: never the empty list. *)
Fixpoint split_sep (sep : char) (s : str) : list str :=
  match s with
  | [] => [[]]
  | c :: s' =>
      if N.eqb c sep then [] :: split_sep sep s'
      else match split_sep sep s' with
           | piece :: rest => (c :: piece) :: rest
           | [] => [[c]]
           end
  end.

(** [sep.join(pieces)] for a one-character separator. *)
Fixpoint join (sep : char) (pieces : list str) : str :=
  match pieces with
  | [] => []
  | [piece] => piece
  | piece :: rest => piece ++ sep :: join sep rest
  end.

(** [s.replace(a, b)] for one-character [a] and [b]. *)
Definition replace (a b : char) (s : str) : str :=
  map (fun c => if N.eqb c a then b else c) s.

Fixpoint dropwhile (p : char -> bool) (s : str) : str :=
  match s with
  | [] => []
  | c :: s' => if p c then dropwhile p s' else s
  end.

(** What the interpreter and its standard library decide. *)
Class PyLib := {
  lower : str -> str;          (* str.lower() *)
  isspace : char -> bool;      (* the class split() and strip() cut on *)
  isdigit : char -> bool;      (* str.isdigit() of a one-character string *)
  stem : str -> str;           (* pathlib.Path(p).stem *)
  lower_empty : lower [] = []
}.

(** [st.secrets] *)
Class Secrets := { GOOGLE_BOOKS_API_KEY : str }.

Section Text.
Context {py : PyLib}.

(** [s.split()]: the maximal runs of non-space characters, in order.
    [cur] is the run being read, reversed. *)
Fixpoint split_from (cur : str) (s : str) : list str :=
  match s with
  | [] => match cur with [] => [] | _ => [rev cur] end
  | c :: s' =>
      if isspace c
      then match cur with
           | [] => split_from [] s'
           | _ => rev cur :: split_from [] s'
           end
      else split_from (c :: cur) s'
  end.

Definition split (s : str) : list str := split_from [] s.

(** [s.strip()] *)
Definition strip (s : str) : str :=
  rev (dropwhile isspace (rev (dropwhile isspace s))).

(** [any(char.isdigit() for char in line)] *)
Definition any_digit (line : str) : bool := existsb isdigit line.

(** [any(keyword in text for keyword in keywords)] *)
Definition any_keyword_in (text : str) (keywords : list str) : bool :=
  existsb (fun keyword => contains text keyword) keywords.
End Text.

(** ** Exceptions, and what the user is shown *)

Inductive exn :=
| AttributeError                (* attribute access on [None] *)
| IndexError                    (* [l[0]] on an empty list *)
| KeyError (key : str)          (* [d[k]] on an absent key *)
| External (message : str).     (* raised inside a collaborator *)

Inductive result (A : Type) :=
| Ok (a : A)
| Raise (e : exn).
Arguments Ok {A} a.
Arguments Raise {A} e.

Definition bind {A B} (r : result A) (k : A -> result B) : result B :=
  match r with
  | Ok a => k a
  | Raise e => Raise e
  end.

Notation "x <- r ;; k" := (bind r (fun x => k))
  (at level 61, r at next level, right associativity).

Inductive event :=
| HttpGet (url : str)                    (* requests.get(url) *)
| StError (prefix : str) (e : exn).      (* st.error(f"{prefix}{e}") *)

(** ** The PDF reader (PyPDF2), as the extractor sees it *)

Record DocumentInformation := {
  info_title : option str;       (* info.title *)
  info_author : option str       (* info.author *)
}.

Record PdfReader := {
  reader_metadata : result (option DocumentInformation);
                                      (* reader.metadata *)
  reader_pages : result (list (result str))
                                      (* reader.pages; a page is the outcome
                                         of its extract_text() *)
}.

(** The dictionary [extract_pdf_metadata] returns. *)
Record Metadata := {
  md_title : str;
  md_author : str;
  md_pages : nat;
  md_is_resume : bool;
  md_content_preview : str
}.

Definition resume_keywords : list str :=
  [lit "resume"; lit "cv"; lit "curriculum vitae";
   lit "professional experience"; lit "education"; lit "skills";
   lit "work experience"].

(** [x if x else default] on an optional string: [None] and the empty
    string are both false. *)
Definition if_else (x : option str) (default : str) : str :=
  match x with
  | Some (c :: s) => c :: s
  | _ => default
  end.

Section Extractor.
Context {py : PyLib}.

(** [reader.pages[0].extract_text() if len(reader.pages) > 0 else ""] *)
Definition first_page_text (reader : PdfReader) : result str :=
  ps <- reader_pages reader ;;
  if 0 <? length ps
  then match nth_error ps 0 with
       | Some page => page
       | None => Raise IndexError
       end
  else Ok [].

(** Lines 33-35. *)
Definition is_resume (first_page_text : str) : bool :=
  any_keyword_in (lower first_page_text) resume_keywords.

(** The condition of line 45. *)
Definition name_like (line : str) : bool :=
  (2 <=? length (split line)) && negb (any_digit line).

(** The loop of lines 44-47 over [lines[:3]], with its [break]. *)
Fixpoint scan_lines (lines : list str) (author : str) : str :=
  match lines with
  | [] => author
  | line :: rest =>
      if name_like line then strip line else scan_lines rest author
  end.

Definition resume_author (first_page_text author : str) : str :=
  let lines := split_sep 10%N first_page_text in
  scan_lines (firstn 3 lines) author.

(** The body of the [try] block. *)
Definition extract_try (file_path : str) (opened : result PdfReader)
  : result Metadata :=
  reader <- opened ;;
  info <- reader_metadata reader ;;
  first_page_text <- first_page_text reader ;;
  let is_resume := is_resume first_page_text in
  info <- match info with
          | Some i => Ok i
          | None => Raise AttributeError
          end ;;
  let title := if_else (info_title info) (stem file_path) in
  let author := if_else (info_author info) (lit "Unknown") in
  ps <- reader_pages reader ;;
  if is_resume
  then
    let author := resume_author first_page_text author in
    Ok {| md_title := if str_eqb title (stem file_path)
                      then lit "Resume/CV" else title;
          md_author := author;
          md_pages := length ps;
          md_is_resume := true;
          md_content_preview := firstn 500 first_page_text |}
  else
    Ok {| md_title := title;
          md_author := author;
          md_pages := length ps;
          md_is_resume := false;
          md_content_preview := firstn 500 first_page_text |}.

Definition extract_failed (file_path : str) : Metadata :=
  {| md_title := stem file_path;
     md_author := lit "Unknown";
     md_pages := 0;
     md_is_resume := false;
     md_content_preview := [] |}.

Definition extract_pdf_metadata (file_path : str) (opened : result PdfReader)
  : Metadata * list event :=
  match extract_try file_path opened with
  | Ok m => (m, [])
  | Raise e =>
      (extract_failed file_path,
       [StError (lit "Error extracting PDF metadata: ") e])
  end.
End Extractor.

(** ** The catalog (Google Books), as [fetch_book_info] sees it

    [data = response.json()] has the shape of a volume list: every key the
    code reads may be absent, and a key that is present holds a value of
    the type the service documents. *)

Record ImageLinks := {
  il_thumbnail : option str
}.

Record VolumeInfo := {
  vi_title : option str;
  vi_authors : option (list str);
  vi_categories : option (list str);
  vi_description : option str;
  vi_imageLinks : option ImageLinks
}.

Record Item := {
  volumeInfo : option VolumeInfo
}.

Record Volumes := {
  items : option (list Item)
}.

(** The dictionary [fetch_book_info] returns. *)
Record BookInfo := {
  bi_title : str;
  bi_author : str;
  bi_genre : str;
  bi_description : str;
  bi_thumbnail : option str
}.

Definition resume_icon : str :=
  lit "https://cdn-icons-png.flaticon.com/512/3135/3135692.png".

Definition document_icon : str :=
  lit "https://cdn-icons-png.flaticon.com/512/337/337946.png".

(** The dictionary of lines 107-113, in its insertion order. *)
Definition categories : list (str * list str) :=
  [(lit "Business",
     [lit "business"; lit "management"; lit "finance"; lit "marketing";
      lit "economics"]);
   (lit "Technology",
     [lit "programming"; lit "software"; lit "computer"; lit "technology";
      lit "engineering"]);
   (lit "Science",
     [lit "science"; lit "physics"; lit "chemistry"; lit "biology";
      lit "research"]);
   (lit "Education",
     [lit "education"; lit "learning"; lit "teaching"; lit "academic";
      lit "school"]);
   (lit "Other", [])].

(** [d[key]] *)
Definition subscript {A} (key : String.string) (x : option A) : result A :=
  match x with
  | Some v => Ok v
  | None => Raise (KeyError (lit key))
  end.
Arguments subscript {A} key%_string_scope x.

(** [d.get(key, default)] *)
Definition get {A} (x : option A) (default : A) : A :=
  match x with
  | Some v => v
  | None => default
  end.

(** [l[0]] *)
Definition item0 {A} (l : list A) : result A :=
  match l with
  | x :: _ => Ok x
  | [] => Raise IndexError
  end.

Section Classifier.
Context {py : PyLib} {secrets : Secrets}.

(** The loop of lines 116-124: the first category one of whose keywords
    occurs in the text. *)
Fixpoint first_category (cats : list (str * list str)) (content_lower : str)
  : option str :=
  match cats with
  | [] => None
  | (category, keywords) :: rest =>
      if any_keyword_in content_lower keywords then Some category
      else first_category rest content_lower
  end.

(** Lines 106-132. *)
Definition categorize (title author content_preview : str) : BookInfo :=
  let content_lower := lower content_preview in
  match first_category categories content_lower with
  | Some category =>
      {| bi_title := title;
         bi_author := author;
         bi_genre := category;
         bi_description := firstn 200 content_preview ++ lit "...";
         bi_thumbnail := None |}
  | None =>
      {| bi_title := title;
         bi_author := author;
         bi_genre := lit "Document";
         bi_description := firstn 200 content_preview ++ lit "...";
         bi_thumbnail := Some document_icon |}
  end.

(** The body of the [try] block of lines 90-102, after the request:
    [Ok None] when control falls out of the [if]. *)
Definition catalog_try (title author : str) (response : result Volumes)
  : result (option BookInfo) :=
  data <- response ;;
  match items data with
  | Some (first :: others) =>
      book_info <- subscript "volumeInfo" (volumeInfo first) ;;
      let title' := get (vi_title book_info) title in
      author' <- item0 (get (vi_authors book_info) [author]) ;;
      genre <- item0 (get (vi_categories book_info) [lit "Uncategorized"]) ;;
      let description :=
        get (vi_description book_info) (lit "No description available") in
      let thumbnail :=
        il_thumbnail
          (get (vi_imageLinks book_info) {| il_thumbnail := None |}) in
      Ok (Some {| bi_title := title';
                  bi_author := author';
                  bi_genre := genre;
                  bi_description := description;
                  bi_thumbnail := thumbnail |})
  | _ => Ok None
  end.

Definition catalog_url (title author : str) : str :=
  let query := replace 32%N 43%N (title ++ lit " " ++ author) in
  lit "https://www.googleapis.com/books/v1/volumes?q=" ++ query
    ++ lit "&key=" ++ GOOGLE_BOOKS_API_KEY.

(** [catalog url] is the outcome of [requests.get(url)] followed by
    [response.json()]. *)
Definition fetch_book_info (catalog : str -> result Volumes)
    (title author content_preview : str) (is_resume : bool)
  : BookInfo * list event :=
  if is_resume
  then
    ({| bi_title := title;
        bi_author := author;
        bi_genre := lit "Resume/CV";
        bi_description :=
          lit "Professional document for " ++ author ++ lit ". "
            ++ firstn 150 content_preview ++ lit "...";
        bi_thumbnail := Some resume_icon |},
     [])
  else
    let url := catalog_url title author in
    match catalog_try title author (catalog url) with
    | Ok (Some book_info) => (book_info, [HttpGet url])
    | Ok None =>
        (categorize title author content_preview, [HttpGet url])
    | Raise e =>
        (categorize title author content_preview,
         [HttpGet url; StError (lit "Error fetching book info: ") e])
    end.
End Classifier.

(** ** The library *)

(** [book_data], an element of [st.session_state.library]. *)
Record Book := {
  file_path : str;
  title : str;
  author : str;
  genre : str;
  pages : nat;
  description : str;
  thumbnail : option str
}.

(** [a == b] on two such dictionaries. *)
Definition book_eqb (a b : Book) : bool :=
  str_eqb (file_path a) (file_path b)
  && str_eqb (title a) (title b)
  && str_eqb (author a) (author b)
  && str_eqb (genre a) (genre b)
  && Nat.eqb (pages a) (pages b)
  && str_eqb (description a) (description b)
  && opt_str_eqb (thumbnail a) (thumbnail b).

(** [book in books] *)
Definition book_in (book : Book) (books : list Book) : bool :=
  existsb (fun other => book_eqb book other) books.

(** Lines 134-140. *)
Definition get_recommendations (genre' : str) (library : list Book)
  : list Book :=
  let recommendations :=
    fold_left
      (fun recommendations book =>
         if str_eqb (genre book) genre' && negb (book_in book recommendations)
         then recommendations ++ [book]
         else recommendations)
      library [] in
  firstn 3 recommendations.

(** [genre_count], a dictionary in insertion order: lines 264-268. *)
Fixpoint count_genre (genre' : str) (genre_count : list (str * nat))
  : list (str * nat) :=
  match genre_count with
  | [] => [(genre', 1)]
  | (g, n) :: rest =>
      if str_eqb g genre' then (g, n + 1) :: rest
      else (g, n) :: count_genre genre' rest
  end.

Definition genre_counts (library : list Book) : list (str * nat) :=
  fold_left (fun genre_count book => count_genre (genre book) genre_count)
    library [].

(** [max(d, key=d.get)] keeps the first key seen unless a later one has a
    strictly greater count. *)
Fixpoint max_from (best : str * nat) (rest : list (str * nat)) : str :=
  match rest with
  | [] => fst best
  | (g, n) :: rest' =>
      if snd best <? n then max_from (g, n) rest' else max_from best rest'
  end.

(** Lines 258-270: [None] is the branch of an empty library, where the page
    only shows a notice. *)
Definition favorite_genre (library : list Book) : option str :=
  match library with
  | [] => None
  | _ =>
      match genre_counts library with
      | first :: rest => Some (max_from first rest)
      | [] => None
      end
  end.

Section Session.
Context {py : PyLib} {secrets : Secrets}.

(** Lines 214-219. *)
Definition filtered_books (library : list Book) (search_query : str)
  : list Book :=
  match search_query with
  | [] => library
  | _ =>
      filter
        (fun book =>
           contains (lower (title book)) (lower search_query)
           || contains (lower (author book)) (lower search_query)
           || contains (lower (genre book)) (lower search_query))
        library
  end.

(** Lines 161-180. *)
Definition book_data (catalog : str -> result Volumes) (path : str)
    (opened : result PdfReader) : Book * list event :=
  let (metadata, shown) := extract_pdf_metadata path opened in
  let (book_info, shown') :=
    fetch_book_info catalog (md_title metadata) (md_author metadata)
      (md_content_preview metadata) (md_is_resume metadata) in
  ({| file_path := path;
      title := bi_title book_info;
      author := bi_author book_info;
      genre := bi_genre book_info;
      pages := md_pages metadata;
      description := bi_description book_info;
      thumbnail := bi_thumbnail book_info |},
   shown ++ shown').

(** Line 201. *)
Definition add_to_library (library : list Book) (book : Book) : list Book :=
  library ++ [book].

(** The strings of a catalog answer are not empty. *)
Definition volume_filled (v : VolumeInfo) : Prop :=
  vi_title v <> Some []
  /\ (forall name others, vi_authors v = Some (name :: others) -> name <> [])
  /\ (forall name others,
        vi_categories v = Some (name :: others) -> name <> [])
  /\ vi_description v <> Some []
  /\ (forall links,
        vi_imageLinks v = Some links -> il_thumbnail links <> Some []).

Definition answer_filled (response : result Volumes) : Prop :=
  forall data first others v,
    response = Ok data -> items data = Some (first :: others) ->
    volumeInfo first = Some v -> volume_filled v.

(** The libraries a session can hold: it starts empty and grows by one
    uploaded document at a time.  The uploaded file has a base name, and
    the catalog, when it answers, answers with strings that are not
    empty. *)
Inductive session : list Book -> Prop :=
| session_start : session []
| session_add library catalog path opened :
    session library ->
    stem path <> [] ->
    (forall url, answer_filled (catalog url)) ->
    session
      (add_to_library library (fst (book_data catalog path opened))).
End Session.

(** ** The pages *)

(** [a < b] on two strings: by code points, a proper prefix first. *)
Fixpoint str_ltb (a b : str) : bool :=
  match a, b with
  | _, [] => false
  | [], _ :: _ => true
  | x :: a', y :: b' => (x <? y)%N || ((x =? y)%N && str_ltb a' b')
  end.

(** The key function chosen by lines 223-228. *)
Definition sort_key (sort_by : str) : Book -> str :=
  if str_eqb sort_by (lit "Title") then title
  else if str_eqb sort_by (lit "Author") then author
  else genre.

(** [sorted(books, key=key)]: a stable sort that compares keys with [<]
    only.  [book] comes before the entries that followed it in the input,
    so it goes in front of the first one whose key is not smaller. *)
Fixpoint insert_by (key : Book -> str) (book : Book) (after : list Book)
  : list Book :=
  match after with
  | [] => [book]
  | other :: rest =>
      if str_ltb (key other) (key book)
      then other :: insert_by key book rest
      else book :: other :: rest
  end.

Definition sorted (key : Book -> str) (books : list Book) : list Book :=
  fold_right (insert_by key) [] books.

(** Lines 233-236 on [genres], a dictionary in insertion order. *)
Fixpoint append_to_genre (book : Book) (genres : list (str * list Book))
  : list (str * list Book) :=
  match genres with
  | [] => [(genre book, [book])]
  | (g, books) :: rest =>
      if str_eqb g (genre book) then (g, books ++ [book]) :: rest
      else (g, books) :: append_to_genre book rest
  end.

(** Lines 231-236. *)
Definition group_by_genre (books : list Book) : list (str * list Book) :=
  fold_left (fun genres book => append_to_genre book genres) books [].

(** [s.replace(old, new)] for a non-empty [old], reading [s] from the
    left; [skip] counts the characters of an occurrence still to pass. *)
Fixpoint replace_from (old new : str) (skip : nat) (s : str) : str :=
  match s with
  | [] => []
  | c :: s' =>
      match skip with
      | S k => replace_from old new k s'
      | 0 =>
          if startswith old s
          then new ++ replace_from old new (length old - 1) s'
          else c :: replace_from old new 0 s'
      end
  end.

(** [s.replace(old, new)]; an empty [old] matches before every character
    and at the end. *)
Definition str_replace (old new s : str) : str :=
  match old with
  | [] => new ++ flat_map (fun c => c :: new) s
  | _ => replace_from old new 0 s
  end.

(** The URL handed to [st.image] on the library and recommendation pages
    (lines 245-248 and 281-284); [None] when no image is requested. *)
Definition thumbnail_url (thumbnail : option str) : option str :=
  match thumbnail with
  | Some (c :: s) => Some (str_replace (lit "http://") (lit "https://") (c :: s))
  | _ => None
  end.

(** What the recommendation page shows (lines 258-290). *)
Inductive recommendations_view :=
| AddBooksNotice
| Columns (favorite : str) (recommendations : list Book)
| NoRecommendations (favorite : str).

Definition recommendations_page (library : list Book) : recommendations_view :=
  match favorite_genre library with
  | None => AddBooksNotice
  | Some favorite =>
      match get_recommendations favorite library with
      | [] => NoRecommendations favorite
      | recommendations => Columns favorite recommendations
      end
  end.

(** The URLs requested, among the events of a run. *)
Definition requested (shown : list event) : list str :=
  flat_map (fun e => match e with HttpGet url => [url] | StError _ _ => [] end)
    shown.

(** The errors reported to the user, among the events of a run. *)
Definition reported (shown : list event) : list exn :=
  flat_map (fun e => match e with HttpGet _ => [] | StError _ e => [e] end)
    shown.

(** [a] may stand before [b] in a list sorted by [key]: the key of [b] is
    not smaller than the key of [a]. *)
Definition key_le (key : Book -> str) (a b : Book) : Prop :=
  str_ltb (key b) (key a) = false.

Section LibraryPage.
Context {py : PyLib}.

(** The sections of the library page (lines 207-236): [None] when the
    library is empty and only a notice is shown. *)
Definition library_page (library : list Book) (search_query sort_by : str)
  : option (list (str * list Book)) :=
  match library with
  | [] => None
  | _ =>
      let found := filtered_books library search_query in
      Some (group_by_genre (sorted (sort_key sort_by) found))
  end.
End LibraryPage.

(** ** CPython on ASCII text and POSIX paths

    The instance the examples run on.  On strings of code points below 128
    these are the interpreter's own answers. *)

Definition ascii_lower (s : str) : str :=
  map (fun c => if (65 <=? c)%N && (c <=? 90)%N then (c + 32)%N else c) s.

Definition ascii_isspace (c : char) : bool :=
  ((9 <=? c)%N && (c <=? 13)%N) || ((28 <=? c)%N && (c <=? 32)%N).

Definition ascii_isdigit (c : char) : bool :=
  (48 <=? c)%N && (c <=? 57)%N.

(** [PurePosixPath(path).stem]: the last component of the path, up to its
    last dot when that dot is neither its first nor its last character. *)
Definition posix_stem (path : str) : str :=
  let parts :=
    filter (fun part => negb (str_eqb part [] || str_eqb part (lit ".")))
      (split_sep 47%N path) in
  let name := last parts [] in
  let suffix := last (split_sep 46%N name) [] in
  let i := length name - length suffix - 1 in
  if contains name (lit ".") && (0 <? i) && (i <? length name - 1)
  then firstn i name
  else name.

#[export] Instance cpython_ascii : PyLib := {|
  lower := ascii_lower;
  isspace := ascii_isspace;
  isdigit := ascii_isdigit;
  stem := posix_stem;
  lower_empty := eq_refl
|}.

#[export] Instance sample_secrets : Secrets := {|
  GOOGLE_BOOKS_API_KEY := lit "k"
|}.

(** ** Sample inputs *)

(** ["\n".join(lines)] *)
Definition join_lines (lines : list str) : str := join 10%N lines.

(** A readable PDF: its embedded title and author, and the text of each
    page. *)
Definition sample_reader (embedded_title embedded_author : option str)
    (page_texts : list str) : PdfReader :=
  {| reader_metadata :=
       Ok (Some {| info_title := embedded_title;
                   info_author := embedded_author |});
     reader_pages := Ok (map Ok page_texts) |}.

Definition jane_cv : PdfReader :=
  sample_reader None None
    [join_lines [lit "2024 Report"; lit "  Jane Doe "; lit "Curriculum Vitae"]].

Definition business_plan : PdfReader :=
  sample_reader (Some (lit "Plan")) (Some (lit "A. Writer"))
    [lit "Programming for Business"].

(** A PDF without a document information dictionary, for which
    [reader.metadata] is [None]; its only page is the head of a resume. *)
Definition resume_without_info : PdfReader :=
  {| reader_metadata := Ok None;
     reader_pages := Ok [Ok (join_lines [lit "Jane Doe"; lit "Resume"])] |}.

Definition catalog_down : str -> result Volumes :=
  fun _ => Raise (External (lit "connection refused")).

Definition sample_book (title' author' genre' : String.string) : Book :=
  {| file_path := lit "uploads/" ++ lit title' ++ lit ".pdf";
     title := lit title';
     author := lit author';
     genre := lit genre';
     pages := 10;
     description := lit "...";
     thumbnail := None |}.
Arguments sample_book (title' author' genre')%_string_scope.

Definition sample_library : list Book :=
  [sample_book "Cooking" "Ann Lee" "Food";
   sample_book "Rust" "John Smith" "Technology";
   sample_book "Go" "Rob Pike" "Technology";
   sample_book "Rust" "John Smith" "Technology";
   sample_book "Baking" "Ann Lee" "Food";
   sample_book "C" "Dennis Ritchie" "Technology";
   sample_book "Lisp" "John McCarthy" "Technology"].

(** An answer of the catalog: a volume without categories or
    description. *)
Definition sample_volume : VolumeInfo :=
  {| vi_title := Some (lit "The Rust Book");
     vi_authors := Some [lit "Steve Klabnik"; lit "Carol Nichols"];
     vi_categories := None;
     vi_description := None;
     vi_imageLinks :=
       Some {| il_thumbnail :=
                 Some (lit "http://books.google.com/books/content?id=1") |} |}.

Definition catalog_answers (found : list Item) : str -> result Volumes :=
  fun _ => Ok {| items := Some found |}.

(** The entry made of [business_plan] while the catalog is down. *)
Definition plan_book : Book :=
  fst (book_data catalog_down (lit "uploads/plan.pdf") (Ok business_plan)).

(** ** The vocabulary of the specification *)

(** The four genre buckets the specification names, in its order. *)
Definition buckets : list (str * list str) :=
  [(lit "Business",
     [lit "business"; lit "management"; lit "finance"; lit "marketing";
      lit "economics"]);
   (lit "Technology",
     [lit "programming"; lit "software"; lit "computer"; lit "technology";
      lit "engineering"]);
   (lit "Science",
     [lit "science"; lit "physics"; lit "chemistry"; lit "biology";
      lit "research"]);
   (lit "Education",
     [lit "education"; lit "learning"; lit "teaching"; lit "academic";
      lit "school"])].

(** First bucket with a keyword in the text; "Document" when there is
    none. *)
Definition genre_by_buckets (text : str) : str :=
  match find (fun bucket => existsb (contains text) (snd bucket)) buckets with
  | Some bucket => fst bucket
  | None => lit "Document"
  end.

(** [s] is [l] with some elements left out. *)
Inductive subsequence {A : Type} : list A -> list A -> Prop :=
| subsequence_nil : subsequence [] []
| subsequence_skip x s l : subsequence s l -> subsequence s (x :: l)
| subsequence_keep x s l : subsequence s l -> subsequence (x :: s) (x :: l).

(** [part] occurs in [whole]. *)
Definition substring (part whole : str) : Prop :=
  exists before after, whole = before ++ part ++ after.

(** The entries of a list without their later repetitions, in the order of
    the list. *)
Fixpoint deduplicated (books : list Book) : list Book :=
  match books with
  | [] => []
  | book :: rest =>
      book :: filter (fun other => negb (book_eqb book other))
                (deduplicated rest)
  end.

(** [recommend(genre, library)] of the specification. *)
Definition recommend (genre' : str) (library : list Book) : list Book :=
  firstn 3
    (deduplicated (filter (fun book => str_eqb (genre book) genre') library)).

(** How many entries of the library have this genre. *)
Definition occurrences (genre' : str) (library : list Book) : nat :=
  length (filter (fun book => str_eqb (genre book) genre') library).

Section Vocabulary.
Context {py : PyLib} {secrets : Secrets}.

(** A line that can be a person's name: at least two tokens, no digit. *)
Definition qualifies (line : str) : Prop :=
  2 <= length (split line) /\ (forall c, In c line -> isdigit c = false).

(** The catalog lookup fails, errors, or returns no match. *)
Inductive lookup_unusable (title author : str) : result Volumes -> Prop :=
| request_fails e :
    lookup_unusable title author (Raise e)
| no_items data :
    items data = None ->
    lookup_unusable title author (Ok data)
| empty_items data :
    items data = Some [] ->
    lookup_unusable title author (Ok data)
| reading_errors data e :
    catalog_try title author (Ok data) = Raise e ->
    lookup_unusable title author (Ok data).

(** The record invariant of the specification: no field is empty. *)
Definition fully_populated (book : Book) : Prop :=
  title book <> [] /\ author book <> [] /\ genre book <> []
  /\ description book <> []
  /\ exists url, thumbnail book = Some url /\ url <> [].

(** The same, with the thumbnail allowed to be [None]. *)
Definition populated (book : Book) : Prop :=
  title book <> [] /\ author book <> [] /\ genre book <> []
  /\ description book <> []
  /\ thumbnail book <> Some [].

(** A call of the [try] block of the extractor raises [e]. *)
Inductive extractor_raises : result PdfReader -> exn -> Prop :=
| open_raises e :
    extractor_raises (Raise e) e
| metadata_raises reader e :
    reader_metadata reader = Raise e ->
    extractor_raises (Ok reader) e
| pages_raises reader info e :
    reader_metadata reader = Ok info ->
    reader_pages reader = Raise e ->
    extractor_raises (Ok reader) e
| extract_text_raises reader info e others :
    reader_metadata reader = Ok info ->
    reader_pages reader = Ok (Raise e :: others) ->
    extractor_raises (Ok reader) e
| metadata_missing reader text :
    reader_metadata reader = Ok None ->
    first_page_text reader = Ok text ->
    extractor_raises (Ok reader) AttributeError.
End Vocabulary.

(** * Properties *)

(** ** Text *)

Lemma str_eqb_eq (a b : str) : str_eqb a b = true <-> a = b.
Proof.
  revert b; induction a as [|x a IH]; intros [|y b]; simpl;
    try (split; [discriminate | congruence]); try tauto.
  rewrite andb_true_iff, N.eqb_eq, IH.
  split; [intros [-> ->]; reflexivity | intros E; injection E; auto].
Qed.

Lemma str_eqb_refl (a : str) : str_eqb a a = true.
Proof. apply str_eqb_eq; reflexivity. Qed.

Lemma str_eqb_neq (a b : str) : str_eqb a b = false <-> a <> b.
Proof.
  rewrite <- str_eqb_eq. destruct (str_eqb a b); split; congruence.
Qed.

Lemma opt_str_eqb_eq (a b : option str) : opt_str_eqb a b = true <-> a = b.
Proof.
  destruct a as [x|], b as [y|]; simpl;
    try (split; [discriminate | congruence]); try tauto.
  rewrite str_eqb_eq. split; congruence.
Qed.

Lemma startswith_iff (p s : str) :
  startswith p s = true <-> exists rest, s = p ++ rest.
Proof.
  revert s; induction p as [|x p IH]; intros s; simpl.
  - split; [exists s; reflexivity | reflexivity].
  - destruct s as [|y s].
    + split; [discriminate | intros [rest E]; discriminate].
    + rewrite andb_true_iff, N.eqb_eq, IH. split.
      * intros [-> [rest ->]]. exists rest; reflexivity.
      * intros [rest E]. injection E as -> ->. split; eauto.
Qed.

(** [contains] is Python's substring test. *)
Lemma contains_iff (s kw : str) :
  contains s kw = true <-> exists before after, s = before ++ kw ++ after.
Proof.
  induction s as [|c s IH].
  - simpl. rewrite orb_false_r, startswith_iff. split.
    + intros [rest E]. exists [], rest. exact E.
    + intros [before [after E]]. destruct before; [eauto|discriminate].
  - cbn [contains]. rewrite orb_true_iff, startswith_iff, IH. split.
    + intros [[rest E] | [before [after E]]].
      * exists [], rest. exact E.
      * exists (c :: before), after. rewrite E. reflexivity.
    + intros [[|d before] [after E]].
      * left. exists after. exact E.
      * right. injection E as _ E. eauto.
Qed.

Lemma split_sep_nonempty (sep : char) (s : str) : split_sep sep s <> [].
Proof.
  destruct s as [|c s]; simpl; [discriminate|].
  destruct (N.eqb c sep); [discriminate|].
  destruct (split_sep sep s); discriminate.
Qed.

Lemma split_sep_join (sep : char) (s : str) :
  join sep (split_sep sep s) = s.
Proof.
  induction s as [|c s IH]; simpl; [reflexivity|].
  destruct (N.eqb c sep) eqn:E.
  - apply N.eqb_eq in E. subst c.
    pose proof (split_sep_nonempty sep s) as H.
    destruct (split_sep sep s) as [|piece rest]; [congruence|].
    simpl. f_equal. exact IH.
  - pose proof (split_sep_nonempty sep s) as H.
    destruct (split_sep sep s) as [|piece rest]; [congruence|].
    rewrite <- IH. destruct rest; reflexivity.
Qed.

Lemma split_sep_pieces (sep : char) (s : str) :
  Forall (fun piece => ~ In sep piece) (split_sep sep s).
Proof.
  induction s as [|c s IH]; simpl.
  - constructor; [intros []|constructor].
  - destruct (N.eqb c sep) eqn:E.
    + constructor; [intros []|exact IH].
    + apply N.eqb_neq in E.
      destruct (split_sep sep s) as [|piece rest].
      * constructor; [|constructor]. intros [H|[]]. auto.
      * inversion IH as [|? ? Hp Hr]; subst. constructor; [|exact Hr].
        intros [H|H]; auto.
Qed.

Lemma dropwhile_suffix (p : char -> bool) (s : str) :
  exists skipped, s = skipped ++ dropwhile p s /\ forallb p skipped = true.
Proof.
  induction s as [|c s [skipped [E F]]]; simpl.
  - exists []. auto.
  - destruct (p c) eqn:P.
    + exists (c :: skipped). simpl. rewrite P, F.
      split; [congruence | reflexivity].
    + exists []. auto.
Qed.

Lemma dropwhile_head (p : char -> bool) (s : str) (c : char) (rest : str) :
  dropwhile p s = c :: rest -> p c = false.
Proof.
  induction s as [|d s IH]; simpl; [discriminate|].
  destruct (p d) eqn:P; [exact IH|].
  intros E; injection E as -> _. exact P.
Qed.

Section TextFacts.
Context {py : PyLib}.

(** [strip] removes white space at both ends and nothing else. *)
Lemma strip_spec (s : str) :
  exists left right,
    s = left ++ strip s ++ right
    /\ forallb isspace left = true /\ forallb isspace right = true
    /\ (forall c rest, strip s = c :: rest -> isspace c = false)
    /\ (forall c rest, strip s = rest ++ [c] -> isspace c = false).
Proof.
  unfold strip.
  destruct (dropwhile_suffix isspace s) as [left [E1 F1]].
  destruct (dropwhile_suffix isspace (rev (dropwhile isspace s)))
    as [right [E2 F2]].
  exists left, (rev right). repeat split; auto.
  - rewrite <- rev_app_distr, <- E2, rev_involutive. exact E1.
  - rewrite forallb_forall in *. intros c Hc. apply F2.
    apply in_rev. exact Hc.
  - intros c rest E.
    assert (dropwhile isspace s
            = rev (dropwhile isspace (rev (dropwhile isspace s)))
                ++ rev right) as D.
    { rewrite <- rev_app_distr, <- E2, rev_involutive. reflexivity. }
    rewrite E in D. simpl in D. exact (dropwhile_head _ _ D).
  - intros c rest E.
    apply (f_equal (@rev char)) in E.
    rewrite rev_involutive, rev_app_distr in E. simpl in E.
    exact (dropwhile_head _ _ E).
Qed.

Lemma split_from_spaces (s : str) :
  forallb isspace s = true -> split_from [] s = [].
Proof.
  induction s as [|c s IH]; simpl; [reflexivity|].
  destruct (isspace c); simpl; [exact IH | discriminate].
Qed.

(** The tokens of [split] are not empty and hold no white space. *)
Lemma split_from_tokens (s cur : str) :
  forallb (fun c => negb (isspace c)) cur = true ->
  forall token,
    In token (split_from cur s) ->
    token <> [] /\ forallb (fun c => negb (isspace c)) token = true.
Proof.
  assert (forall cur,
             cur <> [] ->
             forallb (fun c => negb (isspace c)) cur = true ->
             rev cur <> []
             /\ forallb (fun c => negb (isspace c)) (rev cur) = true) as R.
  { intros cur0 Hn Hc. split.
    - intros E. apply Hn. apply (f_equal (@rev char)) in E.
      rewrite rev_involutive in E. exact E.
    - rewrite forallb_forall in *. intros c Hin. apply Hc, in_rev, Hin. }
  revert cur. induction s as [|c s IH]; intros cur Hc token; simpl.
  - destruct cur as [|d cur]; [intros []|].
    intros [<-|[]]. apply R; [discriminate | exact Hc].
  - destruct (isspace c) eqn:S.
    + destruct cur as [|d cur].
      * apply IH. reflexivity.
      * intros [<-|H]; [apply R; [discriminate | exact Hc]|].
        apply (IH []); [reflexivity | exact H].
    + apply IH. simpl. rewrite S, Hc. reflexivity.
Qed.

(** Put end to end, they are the characters that are not white space. *)
Lemma split_from_concat (s cur : str) :
  concat (split_from cur s)
  = rev cur ++ filter (fun c => negb (isspace c)) s.
Proof.
  revert cur. induction s as [|c s IH]; intros cur; simpl.
  - destruct cur; simpl; rewrite ?app_nil_r; reflexivity.
  - destruct (isspace c) eqn:S; simpl.
    + destruct cur as [|d cur].
      * apply IH.
      * cbn [concat]. rewrite IH. reflexivity.
    + rewrite IH. simpl. rewrite <- app_assoc. reflexivity.
Qed.

(** A line with a token has something left after [strip]. *)
Lemma split_strip (line : str) : split line <> [] -> strip line <> [].
Proof.
  intros H E. apply H. unfold split. apply split_from_spaces.
  destruct (strip_spec line) as [left [right [E1 [F1 [F2 _]]]]].
  rewrite E in E1. simpl in E1. rewrite E1, forallb_app, F1, F2.
  reflexivity.
Qed.
End TextFacts.

(** ** The extractor *)

Section ExtractorFacts.
Context {py : PyLib}.

Lemma first_page_text_pages (reader : PdfReader) (text : str) :
  first_page_text reader = Ok text ->
  exists ps, reader_pages reader = Ok ps.
Proof.
  unfold first_page_text. destruct (reader_pages reader) as [ps|e].
  - eauto.
  - discriminate.
Qed.

(** A run of the [try] block in which no call raises. *)
Lemma extract_try_ok (path : str) (reader : PdfReader)
    (info : DocumentInformation) (text : str) (ps : list (result str)) :
  reader_metadata reader = Ok (Some info) ->
  first_page_text reader = Ok text ->
  reader_pages reader = Ok ps ->
  let title := if_else (info_title info) (stem path) in
  let author := if_else (info_author info) (lit "Unknown") in
  extract_try path (Ok reader) =
    Ok (if is_resume text
        then {| md_title := if str_eqb title (stem path)
                             then lit "Resume/CV" else title;
                md_author := resume_author text author;
                md_pages := length ps;
                md_is_resume := true;
                md_content_preview := firstn 500 text |}
        else {| md_title := title;
                md_author := author;
                md_pages := length ps;
                md_is_resume := false;
                md_content_preview := firstn 500 text |}).
Proof.
  intros Hm Ht Hp. unfold extract_try. simpl.
  rewrite Hm. simpl. rewrite Ht. simpl. rewrite Hp. simpl.
  destruct (is_resume text); reflexivity.
Qed.

Lemma is_resume_iff (text : str) :
  is_resume text = true <->
  exists keyword before after,
    In keyword resume_keywords /\ lower text = before ++ keyword ++ after.
Proof.
  unfold is_resume, any_keyword_in. rewrite existsb_exists. split.
  - intros [keyword [Hin Hc]]. apply contains_iff in Hc.
    destruct Hc as [before [after E]]. eauto.
  - intros [keyword [before [after [Hin E]]]]. exists keyword.
    split; [exact Hin|]. apply contains_iff. eauto.
Qed.

Lemma name_like_iff (line : str) : name_like line = true <-> qualifies line.
Proof.
  unfold name_like, qualifies, any_digit.
  rewrite andb_true_iff, Nat.leb_le, negb_true_iff.
  split; intros [H1 H2]; split; auto.
  - intros c Hc. destruct (isdigit c) eqn:D; [|reflexivity].
    assert (existsb isdigit line = true) as X
      by (apply existsb_exists; eauto).
    congruence.
  - destruct (existsb isdigit line) eqn:X; [|reflexivity].
    apply existsb_exists in X. destruct X as [c [Hc D]].
    rewrite (H2 c Hc) in D. discriminate.
Qed.

Lemma scan_lines_spec (lines : list str) (author : str) :
  (exists i line,
      nth_error lines i = Some line /\ name_like line = true
      /\ (forall j other,
             j < i -> nth_error lines j = Some other ->
             name_like other = false)
      /\ scan_lines lines author = strip line)
  \/ ((forall line, In line lines -> name_like line = false)
      /\ scan_lines lines author = author).
Proof.
  induction lines as [|line rest IH]; simpl.
  - right. split; [intros ? []|reflexivity].
  - destruct (name_like line) eqn:N.
    + left. exists 0, line. repeat split; auto. intros j other Hj. lia.
    + destruct IH as [[i [l [Hi [Hl [Hb E]]]]] | [Hall E]].
      * left. exists (S i), l. repeat split; auto.
        intros [|j] other Hj Ho; simpl in Ho.
        -- congruence.
        -- apply (Hb j); [lia | exact Ho].
      * right. split; [|exact E].
        intros l [<- | Hl]; auto.
Qed.

(** On a run in which no call raises, the flag the extractor returns for a
    first-page text is [is_resume], and [is_resume] holds exactly when the
    lowercased text contains one of the seven keywords as a substring. *)
Theorem resume_detection (path : str) (reader : PdfReader)
    (info : DocumentInformation) (text : str) :
  reader_metadata reader = Ok (Some info) ->
  first_page_text reader = Ok text ->
  md_is_resume (fst (extract_pdf_metadata path (Ok reader))) = is_resume text
  /\ (is_resume text = true <->
      exists keyword before after,
        In keyword
          [lit "resume"; lit "cv"; lit "curriculum vitae";
           lit "professional experience"; lit "education"; lit "skills";
           lit "work experience"]
        /\ lower text = before ++ keyword ++ after).
Proof.
  intros Hm Ht. split; [|apply is_resume_iff].
  destruct (first_page_text_pages _ Ht) as [ps Hp].
  unfold extract_pdf_metadata.
  rewrite (extract_try_ok path _ Hm Ht Hp).
  destruct (is_resume text); reflexivity.
Qed.

(** C4: on a resume the author is the stripped first line, among the
    first three lines of the first-page text, that has at least two
    tokens and no digit; without such a line it is the embedded author,
    or "Unknown" when there is none. *)
Theorem resume_author_rule (path : str) (reader : PdfReader)
    (info : DocumentInformation) (text : str) :
  reader_metadata reader = Ok (Some info) ->
  first_page_text reader = Ok text ->
  is_resume text = true ->
  let lines := firstn 3 (split_sep 10%N text) in
  let inferred := md_author (fst (extract_pdf_metadata path (Ok reader))) in
  (exists i line,
      nth_error lines i = Some line /\ qualifies line
      /\ (forall j other,
             j < i -> nth_error lines j = Some other -> ~ qualifies other)
      /\ inferred = strip line)
  \/ ((forall line, In line lines -> ~ qualifies line)
      /\ inferred = match info_author info with
                    | Some (c :: s) => c :: s
                    | _ => lit "Unknown"
                    end).
Proof.
  intros Hm Ht Hr lines inferred.
  destruct (first_page_text_pages _ Ht) as [ps Hp].
  assert (inferred
          = scan_lines lines (if_else (info_author info) (lit "Unknown")))
    as E.
  { unfold inferred, extract_pdf_metadata.
    rewrite (extract_try_ok path _ Hm Ht Hp), Hr. reflexivity. }
  rewrite E.
  destruct (scan_lines_spec lines (if_else (info_author info) (lit "Unknown")))
    as [[i [line [Hi [Hl [Hb S]]]]] | [Hall S]].
  - left. exists i, line. repeat split; auto.
    + apply name_like_iff, Hl.
    + apply name_like_iff, Hl.
    + intros j other Hj Ho Q. apply name_like_iff in Q.
      rewrite (Hb j other Hj Ho) in Q. discriminate.
  - right. split; [|exact S].
    intros line Hl Q. apply name_like_iff in Q.
    rewrite (Hall line Hl) in Q. discriminate.
Qed.

(** C10: with no page, page 0 is not read: the first-page text is the
    empty string, and the extractor returns no resume flag, an empty
    preview and a page count of zero, whatever the metadata holds; when
    the metadata can be read nothing is reported to the user. *)
Theorem no_page_no_access (path : str) (reader : PdfReader) :
  reader_pages reader = Ok [] ->
  first_page_text reader = Ok []
  /\ is_resume [] = false
  /\ md_is_resume (fst (extract_pdf_metadata path (Ok reader))) = false
  /\ md_content_preview (fst (extract_pdf_metadata path (Ok reader))) = []
  /\ md_pages (fst (extract_pdf_metadata path (Ok reader))) = 0
  /\ (forall info,
        reader_metadata reader = Ok (Some info) ->
        snd (extract_pdf_metadata path (Ok reader)) = []).
Proof.
  intros Hp.
  assert (first_page_text reader = Ok []) as Ht
    by (unfold first_page_text; rewrite Hp; reflexivity).
  assert (is_resume [] = false) as Hr
    by (unfold is_resume; rewrite lower_empty; reflexivity).
  split; [exact Ht|]. split; [exact Hr|].
  unfold extract_pdf_metadata.
  destruct (reader_metadata reader) as [[info|]|e] eqn:Hm.
  - rewrite (extract_try_ok path _ Hm Ht Hp), Hr. simpl. auto.
  - unfold extract_try. simpl. rewrite Hm. simpl. rewrite Ht. simpl.
    repeat split; auto. discriminate.
  - unfold extract_try. simpl. rewrite Hm. simpl.
    repeat split; auto. discriminate.
Qed.
End ExtractorFacts.

Lemma resume_detection_witness :
  md_is_resume
    (fst (extract_pdf_metadata (lit "uploads/cv.pdf") (Ok jane_cv))) = true.
Proof.
  destruct (@resume_detection cpython_ascii (lit "uploads/cv.pdf") jane_cv _ _
              eq_refl eq_refl) as [E _].
  rewrite E. reflexivity.
Defined.

(** C2: on a PDF without a document information dictionary the text of
    the first page is read and holds a resume keyword, so that line 33
    computes [True]; the attribute access of line 37 then raises, and the
    extractor returns the flag [False] with the other defaults. *)
Lemma resume_flag_lost :
  first_page_text resume_without_info
  = Ok (join_lines [lit "Jane Doe"; lit "Resume"])
  /\ is_resume (join_lines [lit "Jane Doe"; lit "Resume"]) = true
  /\ extract_pdf_metadata (lit "uploads/jane.pdf") (Ok resume_without_info)
     = ({| md_title := lit "jane";
           md_author := lit "Unknown";
           md_pages := 0;
           md_is_resume := false;
           md_content_preview := [] |},
        [StError (lit "Error extracting PDF metadata: ") AttributeError]).
Proof.
  split; [reflexivity|]. split; reflexivity.
Qed.

Lemma resume_author_rule_witness :
  is_resume
    (join_lines [lit "2024 Report"; lit "  Jane Doe "; lit "Curriculum Vitae"])
  = true
  /\ md_author (fst (extract_pdf_metadata (lit "uploads/cv.pdf") (Ok jane_cv)))
     = lit "Jane Doe".
Proof.
  split; [reflexivity|].
  destruct (@resume_author_rule cpython_ascii (lit "uploads/cv.pdf") jane_cv
              _ _ eq_refl eq_refl eq_refl)
    as [[i [line [Hi [Hq [Hb E]]]]] | [Hall _]].
  - rewrite E. destruct i as [|[|[|i]]]; vm_compute in Hi;
      [| | |destruct i; discriminate]; injection Hi as <-.
    + destruct Hq as [_ Hd]. specialize (Hd 50%N (or_introl eq_refl)).
      discriminate.
    + reflexivity.
    + exfalso. apply (Hb 1 (lit "  Jane Doe ")); [lia | reflexivity |].
      split; [vm_compute; lia|].
      intros c Hc. vm_compute in Hc.
      repeat (destruct Hc as [<- | Hc]; [reflexivity|]). destruct Hc.
  - exfalso. apply (Hall (lit "  Jane Doe ")).
    + vm_compute. auto.
    + split; [vm_compute; lia|].
      intros c Hc. vm_compute in Hc.
      repeat (destruct Hc as [<- | Hc]; [reflexivity|]). destruct Hc.
Defined.

Lemma no_page_no_access_witness :
  first_page_text (sample_reader None None []) = Ok []
  /\ extract_pdf_metadata (lit "uploads/blank.pdf")
       (Ok (sample_reader None None []))
     = ({| md_title := lit "blank";
           md_author := lit "Unknown";
           md_pages := 0;
           md_is_resume := false;
           md_content_preview := [] |}, []).
Proof.
  destruct (@no_page_no_access cpython_ascii (lit "uploads/blank.pdf")
              (sample_reader None None []) eq_refl) as [H _].
  split; [exact H | reflexivity].
Defined.

(** ** The classifier *)

Section ClassifierFacts.
Context {py : PyLib} {secrets : Secrets}.

Lemma extract_try_raises (path : str) (opened : result PdfReader) (e : exn) :
  extract_try path opened = Raise e <-> extractor_raises opened e.
Proof.
  split.
  - unfold extract_try. destruct opened as [reader|e0]; simpl.
    2: { intros E; injection E as ->. constructor. }
    destruct (reader_metadata reader) as [info|e0] eqn:Hm; simpl.
    2: { intros E; injection E as ->. now apply metadata_raises. }
    destruct (first_page_text reader) as [text|e0] eqn:Ht; simpl.
    + destruct info as [info|]; simpl.
      * destruct (first_page_text_pages _ Ht) as [ps Hp]. rewrite Hp. simpl.
        destruct (is_resume text); discriminate.
      * intros E; injection E as <-. now apply metadata_missing with text.
    + intros E; injection E as ->. unfold first_page_text in Ht.
      destruct (reader_pages reader) as [ps|e1] eqn:Hp; simpl in Ht.
      * destruct ps as [|[t|e1] others]; simpl in Ht; try discriminate.
        injection Ht as ->. now apply extract_text_raises with info others.
      * injection Ht as ->. now apply pages_raises with info.
  - intros H. unfold extract_try.
    destruct H as [e|reader e Hm|reader info e Hm Hp|reader info e others Hm Hp
                   |reader text Hm Ht]; simpl; auto.
    + rewrite Hm. reflexivity.
    + rewrite Hm. simpl. unfold first_page_text. rewrite Hp. reflexivity.
    + rewrite Hm. simpl. unfold first_page_text. rewrite Hp. reflexivity.
    + rewrite Hm. simpl. rewrite Ht. reflexivity.
Qed.

Lemma extract_try_returns (path : str) (opened : result PdfReader)
    (m : Metadata) :
  extract_try path opened = Ok m ->
  exists reader info text ps,
    opened = Ok reader /\ reader_metadata reader = Ok (Some info)
    /\ first_page_text reader = Ok text /\ reader_pages reader = Ok ps.
Proof.
  intros E. unfold extract_try in E.
  destruct opened as [reader|e0]; simpl in E; [|discriminate].
  destruct (reader_metadata reader) as [info|e0] eqn:Hm; simpl in E;
    [|discriminate].
  destruct (first_page_text reader) as [text|e0] eqn:Ht; simpl in E;
    [|discriminate].
  destruct info as [info|]; simpl in E; [|discriminate].
  destruct (first_page_text_pages _ Ht) as [ps Hp].
  exists reader, info, text, ps. auto.
Qed.

Lemma extract_resume (path : str) (opened : result PdfReader) :
  md_is_resume (fst (extract_pdf_metadata path opened)) = true ->
  exists reader info text ps,
    opened = Ok reader /\ reader_metadata reader = Ok (Some info)
    /\ first_page_text reader = Ok text /\ reader_pages reader = Ok ps
    /\ is_resume text = true.
Proof.
  unfold extract_pdf_metadata.
  destruct (extract_try path opened) as [m|e] eqn:E; simpl;
    [|discriminate].
  intros Hr.
  destruct (extract_try_returns _ _ E)
    as (reader & info & text & ps & -> & Hm & Ht & Hp).
  exists reader, info, text, ps. repeat split; auto.
  rewrite (extract_try_ok path _ Hm Ht Hp) in E.
  destruct (is_resume text); [reflexivity|].
  injection E as <-. discriminate.
Qed.

Lemma fetch_resume (catalog : str -> result Volumes)
    (title author content_preview : str) :
  fetch_book_info catalog title author content_preview true =
    ({| bi_title := title;
        bi_author := author;
        bi_genre := lit "Resume/CV";
        bi_description :=
          lit "Professional document for " ++ author ++ lit ". "
            ++ firstn 150 content_preview ++ lit "...";
        bi_thumbnail := Some resume_icon |}, []).
Proof. reflexivity. Qed.

(** C3: for an extraction flagged as a resume the entry has genre
    "Resume/CV", the description "Professional document for {author}. "
    followed by the first 150 characters of the preview and "...", the
    resume icon, and the title "Resume/CV" when the raw title is the
    file's base name, the raw title otherwise; no request is sent to
    the catalog and nothing depends on it. *)
Theorem resume_classification (catalog : str -> result Volumes)
    (path : str) (opened : result PdfReader) :
  md_is_resume (fst (extract_pdf_metadata path opened)) = true ->
  exists reader info text,
    opened = Ok reader /\ reader_metadata reader = Ok (Some info)
    /\ first_page_text reader = Ok text
    /\ let raw_title := match info_title info with
                        | Some (c :: s) => c :: s
                        | _ => stem path
                        end in
       let preview :=
         md_content_preview (fst (extract_pdf_metadata path opened)) in
       let book := fst (book_data catalog path opened) in
       preview = firstn 500 text
       /\ genre book = lit "Resume/CV"
       /\ description book =
            lit "Professional document for " ++ author book ++ lit ". "
              ++ firstn 150 preview ++ lit "..."
       /\ thumbnail book =
            Some (lit "https://cdn-icons-png.flaticon.com/512/3135/3135692.png")
       /\ (raw_title = stem path -> title book = lit "Resume/CV")
       /\ (raw_title <> stem path -> title book = raw_title)
       /\ snd (book_data catalog path opened) = []
       /\ (forall other_catalog,
             book_data other_catalog path opened
             = book_data catalog path opened).
Proof.
  intros H.
  destruct (extract_resume _ _ H) as (reader & info & text & ps & -> & Hm
                                      & Ht & Hp & Hr).
  exists reader, info, text. repeat split; auto; cbv zeta;
    unfold book_data, extract_pdf_metadata;
    rewrite (extract_try_ok path _ Hm Ht Hp), Hr; simpl; auto.
  - intros E. unfold if_else. rewrite E, str_eqb_refl. reflexivity.
  - intros E. unfold if_else. apply str_eqb_neq in E. rewrite E.
    reflexivity.
Qed.

Lemma lookup_unusable_iff (title author : str) (response : result Volumes) :
  lookup_unusable title author response <->
  forall book_info,
    catalog_try title author response <> Ok (Some book_info).
Proof.
  split.
  - intros [e|data H|data H|data e H] book_info.
    + discriminate.
    + simpl. rewrite H. discriminate.
    + simpl. rewrite H. discriminate.
    + rewrite H. discriminate.
  - intros H. destruct response as [data|e]; [|constructor].
    destruct (catalog_try title author (Ok data)) as [[b|]|e] eqn:E.
    + destruct (H b eq_refl).
    + simpl in E. destruct (items data) as [[|first others]|] eqn:I.
      * now apply empty_items.
      * destruct (subscript "volumeInfo" (volumeInfo first)) as [v|];
          [|discriminate]; simpl in E.
        destruct (item0 (get (vi_authors v) [author])); [|discriminate].
        simpl in E.
        destruct (item0 (get (vi_categories v) [lit "Uncategorized"]));
          discriminate.
      * now apply no_items.
    + now apply reading_errors with e.
Qed.

Lemma fetch_unusable (catalog : str -> result Volumes)
    (title author content_preview : str) :
  lookup_unusable title author (catalog (catalog_url title author)) ->
  fst (fetch_book_info catalog title author content_preview false)
  = categorize title author content_preview.
Proof.
  intros H. unfold fetch_book_info.
  destruct (catalog_try title author (catalog (catalog_url title author)))
    as [[b|]|e] eqn:E; try reflexivity.
  destruct (proj1 (lookup_unusable_iff _ _ _) H b E).
Qed.

Lemma first_category_buckets (text : str) :
  match first_category categories text with
  | Some category => category
  | None => lit "Document"
  end = genre_by_buckets text.
Proof.
  unfold genre_by_buckets, categories, buckets, any_keyword_in. simpl.
  repeat match goal with
         | |- context [if ?b then _ else _] => destruct b; [reflexivity|]
         end.
  reflexivity.
Qed.

Lemma categorize_genre (title author content_preview : str) :
  bi_genre (categorize title author content_preview)
  = genre_by_buckets (lower content_preview).
Proof.
  rewrite <- first_category_buckets. unfold categorize.
  destruct (first_category categories (lower content_preview)); reflexivity.
Qed.

Lemma genre_by_buckets_cases (text : str) :
  In (genre_by_buckets text)
    [lit "Business"; lit "Technology"; lit "Science"; lit "Education";
     lit "Document"].
Proof.
  unfold genre_by_buckets, buckets. cbn [find snd fst].
  repeat match goal with
         | |- context [if ?b then _ else _] => destruct b; [simpl; tauto|]
         end.
  simpl; tauto.
Qed.

(** C1: when the lookup fails, errors or returns no match, the genre of
    a non-resume document is the first of Business, Technology, Science,
    Education with a keyword in the lowercased preview, so "business"
    wins over "programming"; with no keyword it is "Document", and it
    is never "Other". *)
Theorem keyword_fallback (catalog : str -> result Volumes)
    (title author content_preview : str) :
  lookup_unusable title author (catalog (catalog_url title author)) ->
  let genre :=
    bi_genre (fst (fetch_book_info catalog title author content_preview
                     false)) in
  genre = genre_by_buckets (lower content_preview)
  /\ (contains (lower content_preview) (lit "business") = true ->
      contains (lower content_preview) (lit "programming") = true ->
      genre = lit "Business")
  /\ ((forall bucket keyword,
         In bucket buckets -> In keyword (snd bucket) ->
         contains (lower content_preview) keyword = false) ->
      genre = lit "Document")
  /\ genre <> lit "Other".
Proof.
  intros H genre.
  assert (genre = genre_by_buckets (lower content_preview)) as E.
  { unfold genre. rewrite (fetch_unusable _ _ H). apply categorize_genre. }
  split; [exact E|]. rewrite E. split; [|split].
  - intros Hb _. unfold genre_by_buckets, buckets. cbn [find snd existsb].
    rewrite Hb. reflexivity.
  - intros Hn. unfold genre_by_buckets.
    destruct (find _ buckets) as [bucket|] eqn:F; [|reflexivity].
    apply find_some in F. destruct F as [Hin Hex].
    apply existsb_exists in Hex. destruct Hex as [keyword [Hk Hc]].
    rewrite (Hn bucket keyword Hin Hk) in Hc. discriminate.
  - intros Eo. pose proof (genre_by_buckets_cases (lower content_preview)) as C.
    rewrite Eo in C. simpl in C.
    repeat (destruct C as [C|C]; [discriminate C|]). exact C.
Qed.

Lemma first_category_cases (text category : str) :
  first_category categories text = Some category ->
  In category
    [lit "Business"; lit "Technology"; lit "Science"; lit "Education"].
Proof.
  unfold categories, first_category.
  change (any_keyword_in text []) with false.
  repeat match goal with
         | |- context [if any_keyword_in ?t ?k then _ else _] =>
             destruct (any_keyword_in t k)
         end; intros F;
    first [discriminate F | injection F as <-; simpl; tauto].
Qed.

(** What [categorize] returns, field by field: the genre is the first
    bucket with a keyword in the lowercased preview, and the document icon
    goes with the genre "Document" only. *)
Lemma categorize_fields (title author content_preview : str) :
  categorize title author content_preview
  = {| bi_title := title;
       bi_author := author;
       bi_genre := genre_by_buckets (lower content_preview);
       bi_description := firstn 200 content_preview ++ lit "...";
       bi_thumbnail :=
         if str_eqb (genre_by_buckets (lower content_preview))
              (lit "Document")
         then Some document_icon
         else None |}.
Proof.
  rewrite <- first_category_buckets. unfold categorize.
  destruct (first_category categories (lower content_preview))
    as [category|] eqn:F; [|reflexivity].
  apply first_category_cases in F. simpl in F.
  destruct F as [<-|[<-|[<-|[<-|[]]]]]; reflexivity.
Qed.

(** C9: an error raised while the PDF is read is caught and shown, and
    the extractor returns the base name, "Unknown", zero pages and an
    empty preview; classification then goes on with these.  An error of
    the catalog lookup is caught and shown too, and the keyword buckets
    decide: the genre is the first of Business, Technology, Science,
    Education with a keyword in the lowercased preview, "Document" when
    there is none.  When both fail the entry is the "Document" default. *)
Theorem failures_are_caught :
  (forall path opened e,
      extractor_raises opened e ->
      extract_pdf_metadata path opened
      = ({| md_title := stem path;
            md_author := lit "Unknown";
            md_pages := 0;
            md_is_resume := false;
            md_content_preview := [] |},
         [StError (lit "Error extracting PDF metadata: ") e]))
  /\ (forall catalog path opened e,
        extractor_raises opened e ->
        exists book_info shown,
          fetch_book_info catalog (stem path) (lit "Unknown") [] false
          = (book_info, shown)
          /\ book_data catalog path opened
             = ({| file_path := path;
                   title := bi_title book_info;
                   author := bi_author book_info;
                   genre := bi_genre book_info;
                   pages := 0;
                   description := bi_description book_info;
                   thumbnail := bi_thumbnail book_info |},
                StError (lit "Error extracting PDF metadata: ") e :: shown))
  /\ (forall catalog title author content_preview e,
        catalog_try title author (catalog (catalog_url title author))
        = Raise e ->
        fetch_book_info catalog title author content_preview false
        = ({| bi_title := title;
              bi_author := author;
              bi_genre := genre_by_buckets (lower content_preview);
              bi_description := firstn 200 content_preview ++ lit "...";
              bi_thumbnail :=
                if str_eqb (genre_by_buckets (lower content_preview))
                     (lit "Document")
                then Some document_icon
                else None |},
           [HttpGet (catalog_url title author);
            StError (lit "Error fetching book info: ") e]))
  /\ (forall catalog path opened e e',
        extractor_raises opened e ->
        catalog (catalog_url (stem path) (lit "Unknown")) = Raise e' ->
        book_data catalog path opened
        = ({| file_path := path;
              title := stem path;
              author := lit "Unknown";
              genre := lit "Document";
              pages := 0;
              description := lit "...";
              thumbnail := Some document_icon |},
           [StError (lit "Error extracting PDF metadata: ") e;
            HttpGet (catalog_url (stem path) (lit "Unknown"));
            StError (lit "Error fetching book info: ") e'])).
Proof.
  assert (forall path opened e,
             extractor_raises opened e ->
             extract_pdf_metadata path opened
             = (extract_failed path,
                [StError (lit "Error extracting PDF metadata: ") e])) as X.
  { intros path opened e H. apply (extract_try_raises path) in H.
    unfold extract_pdf_metadata. rewrite H. reflexivity. }
  split; [exact X|]. split; [|split].
  - intros catalog path opened e H. unfold book_data. rewrite (X _ _ _ H).
    cbn [extract_failed md_title md_author md_content_preview md_is_resume
         md_pages].
    destruct (fetch_book_info catalog (stem path) (lit "Unknown") [] false)
      as [book_info shown].
    exists book_info, shown. split; reflexivity.
  - intros catalog title author content_preview e H.
    unfold fetch_book_info. rewrite H, categorize_fields. reflexivity.
  - intros catalog path opened e e' H Hc. unfold book_data.
    rewrite (X _ _ _ H).
    cbn [extract_failed md_title md_author md_content_preview md_is_resume
         md_pages].
    unfold fetch_book_info. rewrite Hc. cbn [catalog_try bind].
    unfold categorize. rewrite lower_empty. reflexivity.
Qed.

Lemma app_filled (a b : str) : b <> [] -> a ++ b <> [].
Proof. destruct a; [auto | discriminate]. Qed.

Lemma scan_lines_filled (lines : list str) (author : str) :
  author <> [] -> scan_lines lines author <> [].
Proof.
  intros Ha. induction lines as [|line rest IH]; simpl; [exact Ha|].
  destruct (name_like line) eqn:N; [|exact IH].
  apply split_strip. unfold name_like in N.
  apply andb_true_iff in N. destruct N as [N _].
  apply Nat.leb_le in N. destruct (split line); [simpl in N; lia|].
  discriminate.
Qed.

Lemma if_else_filled (x : option str) (default : str) :
  default <> [] -> if_else x default <> [].
Proof. destruct x as [[|c s]|]; simpl; auto. discriminate. Qed.

Lemma extract_filled (path : str) (opened : result PdfReader) :
  stem path <> [] ->
  md_title (fst (extract_pdf_metadata path opened)) <> []
  /\ md_author (fst (extract_pdf_metadata path opened)) <> [].
Proof.
  intros Hs. unfold extract_pdf_metadata.
  destruct (extract_try path opened) as [m|e] eqn:E; simpl.
  - destruct (extract_try_returns _ _ E)
      as (reader & info & text & ps & -> & Hm & Ht & Hp).
    rewrite (extract_try_ok path _ Hm Ht Hp) in E. injection E as <-.
    pose proof (if_else_filled (info_title info) Hs) as T.
    assert (if_else (info_author info) (lit "Unknown") <> []) as A
      by (apply if_else_filled; discriminate).
    destruct (is_resume text); simpl; split; auto.
    + destruct (str_eqb _ _); [discriminate | exact T].
    + apply scan_lines_filled, A.
  - split; [exact Hs | discriminate].
Qed.

Lemma categorize_filled (title author content_preview : str) :
  title <> [] -> author <> [] ->
  let b := categorize title author content_preview in
  bi_title b <> [] /\ bi_author b <> [] /\ bi_genre b <> []
  /\ bi_description b <> [] /\ bi_thumbnail b <> Some [].
Proof.
  intros Ht Ha b.
  assert (bi_genre b <> []) as G.
  { unfold b. rewrite categorize_genre.
    pose proof (genre_by_buckets_cases (lower content_preview)) as C.
    simpl in C. intros E. rewrite E in C.
    repeat (destruct C as [C|C]; [discriminate C|]). exact C. }
  revert G. unfold b, categorize.
  destruct (first_category categories (lower content_preview)); simpl;
    intros G; repeat split; auto;
    try (apply app_filled); discriminate.
Qed.

Lemma catalog_filled (title author : str) (response : result Volumes)
    (b : BookInfo) :
  title <> [] -> author <> [] -> answer_filled response ->
  catalog_try title author response = Ok (Some b) ->
  bi_title b <> [] /\ bi_author b <> [] /\ bi_genre b <> []
  /\ bi_description b <> [] /\ bi_thumbnail b <> Some [].
Proof.
  intros Ht Ha Hf E. destruct response as [data|e]; [|discriminate].
  simpl in E. destruct (items data) as [[|first others]|] eqn:I;
    try discriminate.
  destruct (volumeInfo first) as [v|] eqn:V; [|discriminate]. simpl in E.
  destruct (Hf data first others v eq_refl I V)
    as (F1 & F2 & F3 & F4 & F5).
  assert (get (vi_title v) title <> []) as G1.
  { destruct (vi_title v) as [[|c s]|]; simpl;
      [destruct F1; reflexivity | discriminate | assumption]. }
  assert (get (vi_description v) (lit "No description available") <> [])
    as G4.
  { destruct (vi_description v) as [[|c s]|]; simpl;
      [destruct F4; reflexivity | discriminate | discriminate]. }
  assert (il_thumbnail
            (get (vi_imageLinks v) {| il_thumbnail := None |}) <> Some [])
    as G5.
  { destruct (vi_imageLinks v) as [links|]; simpl; [eauto | discriminate]. }
  destruct (vi_authors v) as [[|name names]|] eqn:A; simpl in E;
    try discriminate;
    destruct (vi_categories v) as [[|category others']|] eqn:C; simpl in E;
    try discriminate; injection E as <-; simpl; repeat split; eauto;
    discriminate.
Qed.

Lemma fetch_filled (catalog : str -> result Volumes)
    (title author content_preview : str) (resume : bool) :
  title <> [] -> author <> [] ->
  (forall url, answer_filled (catalog url)) ->
  let b := fst (fetch_book_info catalog title author content_preview resume)
  in
  bi_title b <> [] /\ bi_author b <> [] /\ bi_genre b <> []
  /\ bi_description b <> [] /\ bi_thumbnail b <> Some [].
Proof.
  intros Ht Ha Hf b. unfold b, fetch_book_info. destruct resume; simpl.
  - repeat split; auto; discriminate.
  - destruct (catalog_try title author (catalog (catalog_url title author)))
      as [[book_info|]|e] eqn:E; cbn [fst].
    + exact (@catalog_filled _ _ _ _ Ht Ha (Hf _) E).
    + apply categorize_filled; auto.
    + apply categorize_filled; auto.
Qed.

Lemma book_data_populated (catalog : str -> result Volumes) (path : str)
    (opened : result PdfReader) :
  stem path <> [] ->
  (forall url, answer_filled (catalog url)) ->
  populated (fst (book_data catalog path opened)).
Proof.
  intros Hs Hf. destruct (@extract_filled path opened Hs) as [T A].
  unfold book_data.
  destruct (extract_pdf_metadata path opened) as [m shown].
  cbn [fst] in T, A.
  pose proof (@fetch_filled catalog _ _ (md_content_preview m)
                (md_is_resume m) T A Hf) as F.
  cbv zeta in F.
  destruct (fetch_book_info catalog (md_title m) (md_author m)
              (md_content_preview m) (md_is_resume m)) as [b shown'].
  exact F.
Qed.

(** C5, as amended: every entry of a library has a title, an author, a
    genre and a description that are not empty, whichever way it was
    classified; its thumbnail is either absent or not empty. *)
Theorem library_entries_populated (library : list Book) :
  session library -> Forall populated library.
Proof.
  induction 1 as [|library catalog path opened _ IH Hs Hf].
  - constructor.
  - unfold add_to_library. apply Forall_app. split; [exact IH|].
    constructor; [|constructor]. apply book_data_populated; auto.
Qed.
End ClassifierFacts.

Lemma keyword_fallback_witness :
  bi_genre
    (fst (fetch_book_info catalog_down (lit "Plan") (lit "A. Writer")
            (lit "Programming for Business") false))
  = lit "Business".
Proof.
  destruct (@keyword_fallback cpython_ascii sample_secrets catalog_down
              (lit "Plan") (lit "A. Writer") (lit "Programming for Business")
              (request_fails _ _ _)) as (_ & H & _).
  apply H; reflexivity.
Defined.

Lemma resume_classification_witness :
  genre (fst (book_data catalog_down (lit "uploads/cv.pdf") (Ok jane_cv)))
  = lit "Resume/CV"
  /\ snd (book_data catalog_down (lit "uploads/cv.pdf") (Ok jane_cv)) = [].
Proof.
  destruct (@resume_classification cpython_ascii sample_secrets catalog_down
              (lit "uploads/cv.pdf") (Ok jane_cv) eq_refl)
    as (reader & info & text & _ & _ & _ & _ & G & _ & _ & _ & _ & S & _).
  split; [exact G | exact S].
Defined.

Lemma failures_are_caught_witness :
  book_data catalog_down (lit "uploads/scan.pdf")
    (Raise (External (lit "EOF marker not found")))
  = ({| file_path := lit "uploads/scan.pdf";
        title := lit "scan";
        author := lit "Unknown";
        genre := lit "Document";
        pages := 0;
        description := lit "...";
        thumbnail := Some document_icon |},
     [StError (lit "Error extracting PDF metadata: ")
        (External (lit "EOF marker not found"));
      HttpGet (lit "https://www.googleapis.com/books/v1/volumes?q=scan+Unknown&key=k");
      StError (lit "Error fetching book info: ")
        (External (lit "connection refused"))])
  /\ fetch_book_info catalog_down (lit "Plan") (lit "A. Writer")
       (lit "Programming for Business") false
     = ({| bi_title := lit "Plan";
           bi_author := lit "A. Writer";
           bi_genre := lit "Business";
           bi_description := lit "Programming for Business...";
           bi_thumbnail := None |},
        [HttpGet (lit "https://www.googleapis.com/books/v1/volumes?q=Plan+A.+Writer&key=k");
         StError (lit "Error fetching book info: ")
           (External (lit "connection refused"))])
  /\ fetch_book_info catalog_down (lit "Notes") (lit "Unknown")
       (lit "Minutes of the meeting") false
     = ({| bi_title := lit "Notes";
           bi_author := lit "Unknown";
           bi_genre := lit "Document";
           bi_description := lit "Minutes of the meeting...";
           bi_thumbnail := Some document_icon |},
        [HttpGet (lit "https://www.googleapis.com/books/v1/volumes?q=Notes+Unknown&key=k");
         StError (lit "Error fetching book info: ")
           (External (lit "connection refused"))]).
Proof.
  destruct (@failures_are_caught cpython_ascii sample_secrets)
    as (_ & _ & C & H).
  split; [|split].
  - exact (H catalog_down (lit "uploads/scan.pdf") _ _ _
             (open_raises _) eq_refl).
  - exact (C catalog_down (lit "Plan") (lit "A. Writer")
             (lit "Programming for Business") _ eq_refl).
  - exact (C catalog_down (lit "Notes") (lit "Unknown")
             (lit "Minutes of the meeting") _ eq_refl).
Defined.

(** C5, as the specification states it, fails: a document whose preview
    matches a keyword bucket is stored without a thumbnail. *)
Lemma partially_filled_entry :
  session [plan_book]
  /\ genre plan_book = lit "Business"
  /\ thumbnail plan_book = None
  /\ ~ Forall fully_populated [plan_book].
Proof.
  split; [|split; [reflexivity | split; [reflexivity|]]].
  - apply (session_add (library := []) catalog_down (lit "uploads/plan.pdf")
             (Ok business_plan) session_start).
    + discriminate.
    + intros url data first others v E. discriminate E.
  - intros H. inversion H as [|? ? (_ & _ & _ & _ & url & E & _) _].
    discriminate E.
Qed.

Lemma library_entries_populated_witness :
  session [plan_book] /\ Forall populated [plan_book].
Proof.
  assert (session [plan_book]) as S.
  { apply (session_add (library := []) catalog_down (lit "uploads/plan.pdf")
             (Ok business_plan) session_start).
    - discriminate.
    - intros url data first others v E. discriminate E. }
  split; [exact S | exact (library_entries_populated S)].
Defined.

(** ** The views *)

Lemma book_eqb_eq (a b : Book) : book_eqb a b = true <-> a = b.
Proof.
  unfold book_eqb. rewrite !andb_true_iff, !str_eqb_eq, Nat.eqb_eq,
    opt_str_eqb_eq.
  destruct a, b; simpl. split.
  - intros [[[[[[-> ->] ->] ->] ->] ->] ->]. reflexivity.
  - intros E. injection E as -> -> -> -> -> -> ->. tauto.
Qed.

Lemma book_eqb_sym (a b : Book) : book_eqb a b = book_eqb b a.
Proof.
  destruct (book_eqb a b) eqn:E, (book_eqb b a) eqn:F; auto.
  - apply book_eqb_eq in E. subst. rewrite (proj2 (book_eqb_eq b b) eq_refl) in F.
    discriminate.
  - apply book_eqb_eq in F. subst. rewrite (proj2 (book_eqb_eq a a) eq_refl) in E.
    discriminate.
Qed.

Lemma book_in_app (book : Book) (a b : list Book) :
  book_in book (a ++ b) = book_in book a || book_in book b.
Proof. apply existsb_app. Qed.

Lemma filter_twice {A} (p q : A -> bool) (l : list A) :
  filter p (filter q l) = filter (fun x => q x && p x) l.
Proof.
  induction l as [|x l IH]; simpl; [reflexivity|].
  destruct (q x); simpl; [destruct (p x)|]; rewrite IH; reflexivity.
Qed.

Lemma filter_deduplicated (p : Book -> bool) (books : list Book) :
  filter p (deduplicated books) = deduplicated (filter p books).
Proof.
  induction books as [|book rest IH]; simpl; [reflexivity|].
  destruct (p book) eqn:P; simpl.
  - f_equal. rewrite <- IH, !filter_twice. apply filter_ext.
    intros x. apply andb_comm.
  - rewrite <- IH, filter_twice. apply filter_ext. intros x.
    destruct (book_eqb book x) eqn:E; simpl; [|reflexivity].
    apply book_eqb_eq in E. subst. auto.
Qed.

Lemma deduplicated_In (book : Book) (books : list Book) :
  In book (deduplicated books) <-> In book books.
Proof.
  induction books as [|first rest IH]; simpl; [tauto|].
  rewrite filter_In, IH, negb_true_iff. split.
  - tauto.
  - intros [E | H]; [auto|].
    destruct (book_eqb first book) eqn:B; [|auto].
    left. now apply book_eqb_eq.
Qed.

Lemma deduplicated_NoDup (books : list Book) : NoDup (deduplicated books).
Proof.
  induction books as [|first rest IH]; simpl; constructor.
  - rewrite filter_In, negb_true_iff. intros [_ E].
    rewrite (proj2 (book_eqb_eq first first) eq_refl) in E. discriminate.
  - apply NoDup_filter, IH.
Qed.

Lemma firstn_NoDup {A} (n : nat) (l : list A) : NoDup l -> NoDup (firstn n l).
Proof.
  intros H. rewrite <- (firstn_skipn n l) in H.
  exact (NoDup_app_remove_r _ _ H).
Qed.

Lemma firstn_In {A} (n : nat) (l : list A) (x : A) :
  In x (firstn n l) -> In x l.
Proof.
  intros H. rewrite <- (firstn_skipn n l). apply in_or_app. auto.
Qed.

Lemma subsequence_trans {A} (a b c : list A) :
  subsequence a b -> subsequence b c -> subsequence a c.
Proof.
  intros H1 H2. revert a H1.
  induction H2 as [|x b c _ IH|x b c _ IH]; intros a H1.
  - exact H1.
  - apply subsequence_skip, IH, H1.
  - inversion H1; subst.
    + apply subsequence_skip, IH. assumption.
    + apply subsequence_keep, IH. assumption.
Qed.

Lemma subsequence_filter {A} (p : A -> bool) (l : list A) :
  subsequence (filter p l) l.
Proof.
  induction l as [|x l IH]; simpl; [apply subsequence_nil|].
  destruct (p x); [apply subsequence_keep | apply subsequence_skip]; exact IH.
Qed.

Lemma subsequence_firstn {A} (n : nat) (l : list A) :
  subsequence (firstn n l) l.
Proof.
  revert n. induction l as [|x l IH]; intros [|n]; simpl.
  - apply subsequence_nil.
  - apply subsequence_nil.
  - apply subsequence_skip. exact (IH 0).
  - apply subsequence_keep, IH.
Qed.

Lemma subsequence_deduplicated (books : list Book) :
  subsequence (deduplicated books) books.
Proof.
  induction books as [|book rest IH]; simpl.
  - apply subsequence_nil.
  - apply subsequence_keep.
    exact (subsequence_trans (subsequence_filter _ _) IH).
Qed.

(** The loop of lines 137-139, started from any list of recommendations. *)
Lemma recommendations_loop (genre' : str) (library recommendations : list Book) :
  fold_left
    (fun recommendations book =>
       if str_eqb (genre book) genre' && negb (book_in book recommendations)
       then recommendations ++ [book]
       else recommendations)
    library recommendations
  = recommendations
      ++ deduplicated
           (filter
              (fun book =>
                 str_eqb (genre book) genre'
                 && negb (book_in book recommendations))
              library).
Proof.
  revert recommendations.
  induction library as [|book rest IH]; intros recommendations; simpl.
  - rewrite app_nil_r. reflexivity.
  - destruct (str_eqb (genre book) genre'
              && negb (book_in book recommendations)) eqn:C.
    + rewrite IH, <- app_assoc. simpl. do 2 f_equal.
      rewrite filter_deduplicated, filter_twice. f_equal.
      apply filter_ext. intros x.
      rewrite book_in_app. unfold book_in at 2. simpl.
      rewrite orb_false_r, negb_orb, (book_eqb_sym book x), andb_assoc.
      reflexivity.
    + apply IH.
Qed.

(** C6: [get_recommendations] returns the entries of the given genre,
    without repetitions, in library order, cut after the third: at most
    three entries, no two of them equal, all from the library and of the
    genre asked for, in the order the library has them; before the cut
    every entry of that genre is among them. *)
Theorem recommendations_rule (genre' : str) (library : list Book) :
  get_recommendations genre' library = recommend genre' library
  /\ length (get_recommendations genre' library) <= 3
  /\ NoDup (get_recommendations genre' library)
  /\ (forall book,
        In book (get_recommendations genre' library) ->
        In book library /\ genre book = genre')
  /\ (forall book,
        In book library -> genre book = genre' ->
        In book
          (deduplicated
             (filter (fun book => str_eqb (genre book) genre') library)))
  /\ subsequence (get_recommendations genre' library) library.
Proof.
  assert (get_recommendations genre' library = recommend genre' library) as E.
  { unfold get_recommendations, recommend. rewrite recommendations_loop.
    cbn [app]. do 2 f_equal. apply filter_ext. intros x. apply andb_true_r. }
  split; [exact E|]. rewrite E. unfold recommend.
  split; [apply firstn_le_length|].
  split; [apply firstn_NoDup, deduplicated_NoDup|]. split.
  - intros book H. apply firstn_In, deduplicated_In, filter_In in H.
    destruct H as [H G]. apply str_eqb_eq in G. auto.
  - split.
    + intros book H G. apply deduplicated_In, filter_In.
      split; [exact H|]. now apply str_eqb_eq.
    + eapply subsequence_trans; [apply subsequence_firstn|].
      eapply subsequence_trans; [apply subsequence_deduplicated|].
      apply subsequence_filter.
Qed.

Section ViewFacts.
Context {py : PyLib}.

(** C7: the empty query returns the library as it is; any other query
    keeps, in order, exactly the entries whose lowercased title, author
    or genre contains the lowercased query. *)
Theorem search_rule (library : list Book) :
  filtered_books library [] = library
  /\ (forall query,
        query <> [] ->
        filtered_books library query
        = filter
            (fun book =>
               contains (lower (title book)) (lower query)
               || contains (lower (author book)) (lower query)
               || contains (lower (genre book)) (lower query))
            library)
  /\ (forall query book,
        query <> [] ->
        (In book (filtered_books library query) <->
         In book library
         /\ (substring (lower query) (lower (title book))
             \/ substring (lower query) (lower (author book))
             \/ substring (lower query) (lower (genre book))))).
Proof.
  split; [reflexivity|]. split.
  - intros [|c q] H; [congruence | reflexivity].
  - intros [|c q] book H; [congruence|].
    cbn [filtered_books]. rewrite filter_In, !orb_true_iff, !contains_iff.
    unfold substring. tauto.
Qed.
End ViewFacts.

Lemma recommendations_example :
  get_recommendations (lit "Technology") sample_library
  = [sample_book "Rust" "John Smith" "Technology";
     sample_book "Go" "Rob Pike" "Technology";
     sample_book "C" "Dennis Ritchie" "Technology"].
Proof. reflexivity. Qed.

Lemma search_rule_witness :
  filtered_books sample_library (lit "SMITH")
  = [sample_book "Rust" "John Smith" "Technology";
     sample_book "Rust" "John Smith" "Technology"]
  /\ In (sample_book "Rust" "John Smith" "Technology")
       (filtered_books sample_library (lit "SMITH")).
Proof.
  destruct (@search_rule cpython_ascii sample_library) as (_ & F & M).
  assert (lit "SMITH" <> []) as Q by discriminate.
  split.
  - rewrite (F _ Q). reflexivity.
  - apply (M _ _ Q). split.
    + right; left; reflexivity.
    + right; left. exists (lit "john "), []. reflexivity.
Defined.

(** ** The favorite genre *)

Lemma count_genre_spec (genre' : str) (genre_count : list (str * nat)) :
  (~ In genre' (map fst genre_count)
   /\ count_genre genre' genre_count = genre_count ++ [(genre', 1)])
  \/ (exists before n after,
        genre_count = before ++ (genre', n) :: after
        /\ ~ In genre' (map fst before)
        /\ count_genre genre' genre_count
           = before ++ (genre', n + 1) :: after).
Proof.
  induction genre_count as [|[g n] rest IH]; simpl.
  - left. auto.
  - destruct (str_eqb g genre') eqn:E.
    + apply str_eqb_eq in E. subst g. right. exists [], n, rest. auto.
    + apply str_eqb_neq in E.
      destruct IH as [[Hn Hc] | (before & m & after & Hg & Hn & Hc)].
      * left. rewrite Hc. split; [|reflexivity]. intros [H|H]; auto.
      * right. exists ((g, n) :: before), m, after. rewrite Hc, Hg.
        repeat split; auto. simpl. intros [H|H]; auto.
Qed.

Lemma occurrences_app (genre' : str) (a b : list Book) :
  occurrences genre' (a ++ b) = occurrences genre' a + occurrences genre' b.
Proof. unfold occurrences. rewrite filter_app, length_app. reflexivity. Qed.

Lemma occurrences_one (genre' : str) (book : Book) :
  occurrences genre' [book] = if str_eqb (genre book) genre' then 1 else 0.
Proof. unfold occurrences. simpl. destruct (str_eqb _ _); reflexivity. Qed.

Lemma occurrences_positive (genre' : str) (library : list Book) :
  0 < occurrences genre' library ->
  exists book, In book library /\ genre book = genre'.
Proof.
  unfold occurrences. intros H.
  destruct (filter (fun book => str_eqb (genre book) genre') library)
    as [|book rest] eqn:F; [simpl in H; lia|].
  assert (In book (filter (fun book => str_eqb (genre book) genre') library))
    as Hin by (rewrite F; left; reflexivity).
  apply filter_In in Hin. destruct Hin as [Hin E]. apply str_eqb_eq in E.
  eauto.
Qed.

Lemma snoc_cases {A} (l : list A) : l = [] \/ exists front x, l = front ++ [x].
Proof.
  destruct (rev l) as [|x r] eqn:R.
  - left. apply (f_equal (@rev A)) in R. rewrite rev_involutive in R. exact R.
  - right. exists (rev r), x. apply (f_equal (@rev A)) in R.
    rewrite rev_involutive in R. exact R.
Qed.

(** What the counting loop of lines 262-268 has built after reading a
    library: one entry per genre, in the order the genres first appear,
    with its number of occurrences. *)
Lemma genre_counts_spec (library : list Book) :
  NoDup (map fst (genre_counts library))
  /\ (forall g n, In (g, n) (genre_counts library) -> n = occurrences g library)
  /\ (forall book,
        In book library -> In (genre book) (map fst (genre_counts library)))
  /\ (forall earlier g later,
        map fst (genre_counts library) = earlier ++ g :: later ->
        exists before first after,
          library = before ++ first :: after /\ genre first = g
          /\ forall book, In book before -> In (genre book) earlier).
Proof.
  unfold genre_counts.
  induction library as [|book library IH] using rev_ind.
  - simpl. repeat split.
    + constructor.
    + intros g n [].
    + intros book [].
    + intros [|? ?] g later E; discriminate.
  - rewrite fold_left_app. cbn [fold_left].
    set (counts := fold_left
                     (fun genre_count book => count_genre (genre book) genre_count)
                     library []) in *.
    destruct IH as (ND & Hocc & Hkeys & Hord).
    destruct (count_genre_spec (genre book) counts)
      as [[Hn Hc] | (before & m & after & Hg & Hn & Hc)]; rewrite Hc.
    + (* a genre not seen before *)
      rewrite map_app. cbn [map fst]. repeat split.
      * apply NoDup_app; auto.
        -- constructor; [intros []|constructor].
        -- intros a Ha [<-|[]]. auto.
      * intros g n H. rewrite occurrences_app, occurrences_one.
        apply in_app_or in H. destruct H as [H | [H|[]]].
        -- rewrite <- (Hocc g n H).
           destruct (str_eqb (genre book) g) eqn:E; [|lia].
           apply str_eqb_eq in E. subst g. destruct Hn.
           apply (in_map fst) in H. exact H.
        -- injection H as <- <-. rewrite str_eqb_refl.
           destruct (Nat.eq_dec (occurrences (genre book) library) 0) as [->|P];
             [reflexivity|].
           destruct (@occurrences_positive (genre book) library) as (b & Hb & Eb);
             [lia|].
           destruct Hn. rewrite <- Eb. auto.
      * intros b H. apply in_app_or in H. apply in_or_app.
        destruct H as [H | [<-|[]]]; [left; auto | right; left; reflexivity].
      * intros earlier g later E.
        destruct (snoc_cases later) as [-> | (front & x & ->)].
        -- apply app_inj_tail in E. destruct E as [<- <-].
           exists library, book, []. repeat split; auto.
        -- change (earlier ++ g :: front ++ [x])
             with (earlier ++ (g :: front) ++ [x]) in E.
           rewrite app_assoc in E. apply app_inj_tail in E.
           destruct E as [E _].
           destruct (Hord _ _ _ E) as (b1 & f & a1 & -> & Hf & Hb).
           exists b1, f, (a1 ++ [book]). rewrite <- app_assoc. auto.
    + (* a genre seen before *)
      assert (map fst (before ++ (genre book, m + 1) :: after)
              = map fst counts) as K
        by (rewrite Hg, !map_app; reflexivity).
      rewrite K. repeat split; auto.
      * intros g n H. rewrite occurrences_app, occurrences_one.
        rewrite Hg in Hocc, ND. rewrite map_app in ND. cbn [map fst] in ND.
        apply in_app_or in H. destruct H as [H | [H|H]].
        -- rewrite <- (Hocc g n); [|apply in_or_app; auto].
           destruct (str_eqb (genre book) g) eqn:E; [|lia].
           apply str_eqb_eq in E. subst g. destruct Hn.
           apply (in_map fst) in H. exact H.
        -- injection H as <- <-. rewrite str_eqb_refl.
           rewrite <- (Hocc (genre book) m); [lia|].
           apply in_or_app. right; left; reflexivity.
        -- rewrite <- (Hocc g n); [|apply in_or_app; right; right; exact H].
           destruct (str_eqb (genre book) g) eqn:E; [|lia].
           apply str_eqb_eq in E. subst g.
           apply NoDup_remove_2 in ND. destruct ND.
           apply in_or_app. right. apply (in_map fst) in H. exact H.
      * intros b H. apply in_app_or in H.
        destruct H as [H | [<-|[]]]; [auto|].
        rewrite Hg, map_app. apply in_or_app. right; left; reflexivity.
      * intros earlier g later E.
        destruct (Hord _ _ _ E) as (b1 & f & a1 & -> & Hf & Hb).
        exists b1, f, (a1 ++ [book]). rewrite <- app_assoc. auto.
Qed.

(** [max_from] returns the first key whose count no other key exceeds. *)
Lemma max_from_first (rest : list (str * nat)) (best : str * nat) :
  exists before n after,
    best :: rest = before ++ (max_from best rest, n) :: after
    /\ (forall g m, In (g, m) before -> m < n)
    /\ (forall g m, In (g, m) after -> m <= n).
Proof.
  revert best. induction rest as [|[g n] rest IH]; intros [g0 n0]; simpl.
  - exists [], n0, []. repeat split; intros ? ? [].
  - destruct (n0 <? n) eqn:L.
    + apply Nat.ltb_lt in L.
      destruct (IH (g, n)) as (before & k & after & E & Hb & Ha).
      remember (max_from (g, n) rest) as favorite eqn:F. clear F.
      exists ((g0, n0) :: before), k, after. simpl. rewrite E.
      repeat split; auto.
      intros g1 m [H|H]; [|eauto]. injection H as <- <-.
      destruct before as [|p before]; simpl in E.
      * injection E as _ <- _. exact L.
      * injection E as <- _. specialize (Hb g n (or_introl eq_refl)). lia.
    + apply Nat.ltb_ge in L.
      destruct (IH (g0, n0)) as (before & k & after & E & Hb & Ha).
      remember (max_from (g0, n0) rest) as favorite eqn:F. clear F.
      destruct before as [|p before]; simpl in E.
      * injection E as Eg <- <-.
        exists [], n0, ((g, n) :: rest). simpl. rewrite <- Eg.
        repeat split; [intros ? ? [] |].
        intros g1 m [H|H]; [injection H as <- <-; exact L | eauto].
      * injection E as <- ->.
        exists ((g0, n0) :: (g, n) :: before), k, after.
        simpl. repeat split; auto.
        intros g1 m [H|[H|H]].
        -- eapply Hb. left. exact H.
        -- injection H as <- <-.
           specialize (Hb g0 n0 (or_introl eq_refl)). lia.
        -- eapply Hb. right. exact H.
Qed.

(** C8: for a library that is not empty, [favorite_genre] is the genre of
    an entry, no genre occurs more often, and every entry before the first
    one of that genre has a genre that occurs strictly less often, so of
    several genres with the highest count the one met first is returned.
    The result is a function of the library. *)
Theorem favorite_genre_rule (library : list Book) :
  library <> [] ->
  exists favorite before first after,
    favorite_genre library = Some favorite
    /\ library = before ++ first :: after
    /\ genre first = favorite
    /\ (forall g, occurrences g library <= occurrences favorite library)
    /\ (forall book,
          In book before ->
          occurrences (genre book) library < occurrences favorite library)
    /\ (forall other, favorite_genre library = Some other -> other = favorite).
Proof.
  intros Hne.
  destruct (genre_counts_spec library) as (ND & Hocc & Hkeys & Hord).
  unfold favorite_genre.
  destruct library as [|book0 library0] eqn:L; [congruence|].
  rewrite <- L in *.
  destruct (genre_counts library) as [|best rest] eqn:C.
  { exfalso. apply (Hkeys book0). rewrite L. left; reflexivity. }
  destruct (max_from_first rest best) as (cb & n & ca & E & Hb & Ha).
  set (favorite := max_from best rest) in *.
  assert (map fst (best :: rest) = map fst cb ++ favorite :: map fst ca) as K
    by (rewrite E, map_app; reflexivity).
  destruct (Hord _ _ _ K) as (before & first & after & El & Ef & Hbefore).
  assert (n = occurrences favorite library) as En.
  { apply Hocc. rewrite E. apply in_or_app. right; left; reflexivity. }
  exists favorite, before, first, after.
  split; [reflexivity|]. split; [exact El|]. split; [exact Ef|].
  split; [|split].
  - intros g.
    destruct (Nat.eq_dec (occurrences g library) 0) as [Z|P]; [lia|].
    destruct (@occurrences_positive g library) as (b & Hb' & Eb); [lia|].
    specialize (Hkeys b Hb'). rewrite Eb in Hkeys.
    apply in_map_iff in Hkeys. destruct Hkeys as ([g' m] & Eg & Hin).
    simpl in Eg. subst g'. pose proof (Hocc g m Hin) as Em.
    rewrite E in Hin. apply in_app_or in Hin.
    destruct Hin as [Hin | [Hin | Hin]].
    + specialize (Hb g m Hin). lia.
    + injection Hin as _ Hnm. lia.
    + specialize (Ha g m Hin). lia.
  - intros b Hin. specialize (Hbefore b Hin).
    apply in_map_iff in Hbefore. destruct Hbefore as ([g m] & Eg & Hcb).
    simpl in Eg. subst g.
    assert (m = occurrences (genre b) library) as Em
      by (apply Hocc; rewrite E; apply in_or_app; auto).
    specialize (Hb _ _ Hcb). lia.
  - intros other H. injection H as <-. reflexivity.
Qed.

Lemma favorite_genre_rule_witness :
  favorite_genre
    [sample_book "Cooking" "Ann Lee" "Food";
     sample_book "Rust" "John Smith" "Technology";
     sample_book "Go" "Rob Pike" "Technology";
     sample_book "Baking" "Ann Lee" "Food"]
  = Some (lit "Food").
Proof.
  destruct (@favorite_genre_rule
              [sample_book "Cooking" "Ann Lee" "Food";
               sample_book "Rust" "John Smith" "Technology";
               sample_book "Go" "Rob Pike" "Technology";
               sample_book "Baking" "Ann Lee" "Food"])
    as (favorite & before & first & after & E & _ & _ & _ & _ & U).
  - discriminate.
  - rewrite E. f_equal. symmetry. apply U. reflexivity.
Defined.

(** * The rest of the application *)

(** ** The order of strings *)

Lemma str_ltb_irrefl (a : str) : str_ltb a a = false.
Proof.
  induction a as [|x a IH]; simpl; [reflexivity|].
  rewrite N.ltb_irrefl, N.eqb_refl, IH. reflexivity.
Qed.

Lemma str_ltb_trans (a b c : str) :
  str_ltb a b = true -> str_ltb b c = true -> str_ltb a c = true.
Proof.
  revert b c. induction a as [|x a IH]; intros [|y b] [|z c]; simpl;
    try discriminate; auto.
  rewrite !orb_true_iff, !andb_true_iff, !N.ltb_lt, !N.eqb_eq.
  intros [H1 | [E1 H1]] [H2 | [E2 H2]].
  - left. lia.
  - left. lia.
  - left. lia.
  - right. split; [lia | eauto].
Qed.

Lemma str_ltb_asym (a b : str) : str_ltb a b = true -> str_ltb b a = false.
Proof.
  intros H. destruct (str_ltb b a) eqn:E; [|reflexivity].
  rewrite <- (str_ltb_irrefl a). symmetry. exact (str_ltb_trans _ _ _ H E).
Qed.

Lemma str_ltb_total (a b : str) :
  str_ltb a b = false -> str_ltb b a = false -> a = b.
Proof.
  revert b. induction a as [|x a IH]; intros [|y b]; simpl;
    try discriminate; auto.
  rewrite !orb_false_iff, !andb_false_iff, !N.ltb_ge, !N.eqb_neq.
  intros [H1 H1'] [H2 H2'].
  assert (x = y) by lia. subst y. f_equal.
  apply IH; [destruct H1' | destruct H2']; congruence.
Qed.

Lemma key_le_trans (key : Book -> str) (a b c : Book) :
  key_le key a b -> key_le key b c -> key_le key a c.
Proof.
  unfold key_le. intros H1 H2.
  destruct (str_ltb (key c) (key a)) eqn:E; [|reflexivity].
  destruct (str_ltb (key b) (key c)) eqn:F.
  - rewrite (str_ltb_trans _ _ _ F E) in H1. discriminate.
  - rewrite (str_ltb_total _ _ F H2) in H1. congruence.
Qed.

(** ** Sorting *)

Lemma insert_by_perm (key : Book -> str) (book : Book) (after : list Book) :
  Permutation (insert_by key book after) (book :: after).
Proof.
  induction after as [|other rest IH]; simpl; [reflexivity|].
  destruct (str_ltb (key other) (key book)); [|reflexivity].
  rewrite IH. apply perm_swap.
Qed.

Lemma insert_by_sorted (key : Book -> str) (book : Book) (after : list Book) :
  Sorted (key_le key) after -> Sorted (key_le key) (insert_by key book after).
Proof.
  induction after as [|other rest IH]; simpl; intros H.
  - repeat constructor.
  - apply Sorted_inv in H. destruct H as [Hs Hh].
    destruct (str_ltb (key other) (key book)) eqn:L.
    + constructor; [apply IH, Hs|].
      destruct rest as [|next rest]; simpl.
      * constructor. unfold key_le. apply str_ltb_asym, L.
      * destruct (str_ltb (key next) (key book)).
        -- constructor. inversion Hh; assumption.
        -- constructor. unfold key_le. apply str_ltb_asym, L.
    + constructor; [constructor; assumption|].
      constructor. exact L.
Qed.

Lemma sorted_Sorted (key : Book -> str) (books : list Book) :
  Sorted (key_le key) (sorted key books).
Proof.
  induction books as [|book rest IH]; simpl; [constructor|].
  apply insert_by_sorted, IH.
Qed.

Lemma insert_by_filter (key : Book -> str) (k : str) (book : Book)
    (after : list Book) :
  filter (fun b => str_eqb (key b) k) (insert_by key book after)
  = filter (fun b => str_eqb (key b) k) (book :: after).
Proof.
  induction after as [|other rest IH]; simpl; [reflexivity|].
  destruct (str_ltb (key other) (key book)) eqn:L; [|reflexivity].
  cbn [filter]. rewrite IH. cbn [filter].
  destruct (str_eqb (key book) k) eqn:E1, (str_eqb (key other) k) eqn:E2;
    try reflexivity.
  apply str_eqb_eq in E1, E2. rewrite E1, E2, str_ltb_irrefl in L.
  discriminate.
Qed.

Lemma insert_by_head (key : Book -> str) (book : Book) (after : list Book) :
  HdRel (key_le key) book after -> insert_by key book after = book :: after.
Proof.
  intros H. destruct after as [|other rest]; [reflexivity|]. simpl.
  inversion H as [|? ? R]; subst. unfold key_le in R. rewrite R. reflexivity.
Qed.

Lemma sorted_fixed (key : Book -> str) (books : list Book) :
  Sorted (key_le key) books -> sorted key books = books.
Proof.
  induction 1 as [|book rest Hs IH Hh]; simpl; [reflexivity|].
  rewrite IH. apply insert_by_head, Hh.
Qed.

Lemma sorted_perm (key : Book -> str) (books : list Book) :
  Permutation (sorted key books) books.
Proof.
  induction books as [|book rest IH]; simpl; [reflexivity|].
  rewrite insert_by_perm, IH. reflexivity.
Qed.

Lemma sorted_strongly (key : Book -> str) (books : list Book) :
  StronglySorted (key_le key) (sorted key books).
Proof.
  apply Sorted_StronglySorted; [|apply sorted_Sorted].
  intros a b c. apply key_le_trans.
Qed.

(** X1: [sorted] returns the same entries, each as often as in the input,
    with keys that never decrease. *)
Theorem sorted_ordered (key : Book -> str) (books : list Book) :
  Permutation (sorted key books) books
  /\ StronglySorted (key_le key) (sorted key books).
Proof.
  split.
  - apply sorted_perm.
  - apply sorted_strongly.
Qed.

(** X2: sorting is stable: the entries with one key value stay in the
    order the input has them. *)
Theorem sorted_stable (key : Book -> str) (k : str) (books : list Book) :
  filter (fun book => str_eqb (key book) k) (sorted key books)
  = filter (fun book => str_eqb (key book) k) books.
Proof.
  induction books as [|book rest IH]; [reflexivity|].
  cbn [sorted fold_right]. rewrite insert_by_filter.
  cbn [filter]. fold (sorted key rest). rewrite IH. reflexivity.
Qed.

(** X3: a list whose keys never decrease is returned as it is, so sorting
    a second time by the same key changes nothing. *)
Theorem sorted_idempotent (key : Book -> str) (books : list Book) :
  (Sorted (key_le key) books -> sorted key books = books)
  /\ sorted key (sorted key books) = sorted key books.
Proof.
  split; [apply sorted_fixed|]. apply sorted_fixed, sorted_Sorted.
Qed.

(** ** Grouping by genre *)

Lemma append_to_genre_spec (book : Book) (genres : list (str * list Book)) :
  (~ In (genre book) (map fst genres)
   /\ append_to_genre book genres = genres ++ [(genre book, [book])])
  \/ (exists before books after,
        genres = before ++ (genre book, books) :: after
        /\ ~ In (genre book) (map fst before)
        /\ append_to_genre book genres
           = before ++ (genre book, books ++ [book]) :: after).
Proof.
  induction genres as [|[g books] rest IH]; simpl.
  - left. auto.
  - destruct (str_eqb g (genre book)) eqn:E.
    + apply str_eqb_eq in E. subst g. right. exists [], books, rest. auto.
    + apply str_eqb_neq in E.
      destruct IH as [[Hn Hc] | (before & bs & after & Hg & Hn & Hc)].
      * left. rewrite Hc. split; [|reflexivity]. intros [H|H]; auto.
      * right. exists ((g, books) :: before), bs, after. rewrite Hc, Hg.
        repeat split; auto. simpl. intros [H|H]; auto.
Qed.

Lemma append_to_genre_keys (book : Book) (genres : list (str * list Book))
    (genre_count : list (str * nat)) :
  map fst genres = map fst genre_count ->
  map fst (append_to_genre book genres)
  = map fst (count_genre (genre book) genre_count).
Proof.
  revert genre_count.
  induction genres as [|[g books] rest IH]; intros [|[g' n] counts]; simpl;
    try discriminate; auto.
  intros E. injection E as <- E.
  destruct (str_eqb g (genre book)); simpl; f_equal; auto.
Qed.

(** The dictionary of the library page and the dictionary of the
    recommendation page hold the same genres in the same order. *)
Lemma group_by_genre_keys (books : list Book) :
  map fst (group_by_genre books) = map fst (genre_counts books).
Proof.
  unfold group_by_genre, genre_counts.
  induction books as [|book books IH] using rev_ind; [reflexivity|].
  rewrite !fold_left_app. simpl. apply append_to_genre_keys, IH.
Qed.

Lemma filter_genre_snoc (g : str) (books : list Book) (book : Book) :
  filter (fun b => str_eqb (genre b) g) (books ++ [book])
  = filter (fun b => str_eqb (genre b) g) books
      ++ (if str_eqb (genre book) g then [book] else []).
Proof. rewrite filter_app. reflexivity. Qed.

Lemma group_by_genre_spec (books : list Book) :
  forall g section,
    In (g, section) (group_by_genre books) ->
    section <> []
    /\ section = filter (fun book => str_eqb (genre book) g) books.
Proof.
  pose proof (group_by_genre_keys books) as K.
  destruct (genre_counts_spec books) as (ND & _ & _ & _).
  rewrite <- K in ND. clear K. revert ND. unfold group_by_genre.
  induction books as [|book books IH] using rev_ind; [intros _ g section []|].
  rewrite fold_left_app. cbn [fold_left].
  set (genres := fold_left (fun genres book => append_to_genre book genres)
                   books []) in *.
  intros ND g section Hin.
  destruct (append_to_genre_spec book genres)
    as [[Hn Hc] | (before & bs & after & Hg & Hn & Hc)]; rewrite Hc in *.
  - rewrite map_app in ND. apply NoDup_app_remove_r in ND.
    specialize (IH ND). rewrite filter_genre_snoc.
    apply in_app_or in Hin. destruct Hin as [Hin | [Hin|[]]].
    + destruct (IH g section Hin) as [Hne Hf]. split; [exact Hne|].
      destruct (str_eqb (genre book) g) eqn:E.
      * apply str_eqb_eq in E. subst g. destruct Hn.
        apply (in_map fst) in Hin. exact Hin.
      * rewrite app_nil_r. exact Hf.
    + injection Hin as <- <-. split; [discriminate|].
      rewrite str_eqb_refl.
      destruct (filter (fun b => str_eqb (genre b) (genre book)) books)
        as [|b0 others] eqn:F; [reflexivity|].
      exfalso.
      assert (In b0 (filter (fun b => str_eqb (genre b) (genre book)) books))
        as Hb by (rewrite F; left; reflexivity).
      apply filter_In in Hb. destruct Hb as [Hb E]. apply str_eqb_eq in E.
      apply Hn. fold genres in IH.
      pose proof (group_by_genre_keys books) as K.
      unfold group_by_genre in K. fold genres in K. rewrite K, <- E.
      destruct (genre_counts_spec books) as (_ & _ & Hkeys & _). auto.
  - assert (map fst (before ++ (genre book, bs ++ [book]) :: after)
            = map fst genres) as K
      by (rewrite Hg, !map_app; reflexivity).
    rewrite K in ND. specialize (IH ND). rewrite filter_genre_snoc.
    rewrite Hg in IH, ND. rewrite map_app in ND. cbn [map fst] in ND.
    apply in_app_or in Hin. destruct Hin as [Hin | [Hin|Hin]].
    + destruct (IH g section) as [Hne Hf]; [apply in_or_app; auto|].
      split; [exact Hne|].
      destruct (str_eqb (genre book) g) eqn:E.
      * apply str_eqb_eq in E. subst g. destruct Hn.
        apply (in_map fst) in Hin. exact Hin.
      * rewrite app_nil_r. exact Hf.
    + injection Hin as <- <-.
      destruct (IH (genre book) bs) as [Hne Hf];
        [apply in_or_app; right; left; reflexivity|].
      split; [destruct bs; discriminate|].
      rewrite str_eqb_refl, <- Hf. reflexivity.
    + destruct (IH g section) as [Hne Hf];
        [apply in_or_app; right; right; exact Hin|].
      split; [exact Hne|].
      destruct (str_eqb (genre book) g) eqn:E.
      * apply str_eqb_eq in E. subst g.
        apply NoDup_remove_2 in ND. destruct ND.
        apply in_or_app. right. apply (in_map fst) in Hin. exact Hin.
      * rewrite app_nil_r. exact Hf.
Qed.

Lemma append_to_genre_perm (book : Book) (genres : list (str * list Book)) :
  Permutation (concat (map snd (append_to_genre book genres)))
    (concat (map snd genres) ++ [book]).
Proof.
  induction genres as [|[g books] rest IH]; simpl; [reflexivity|].
  destruct (str_eqb g (genre book)); simpl.
  - rewrite <- !app_assoc. apply Permutation_app_head.
    apply Permutation_app_comm.
  - rewrite IH, app_assoc. reflexivity.
Qed.

Lemma group_by_genre_NoDup (books : list Book) :
  NoDup (map fst (group_by_genre books)).
Proof.
  rewrite group_by_genre_keys.
  destruct (genre_counts_spec books) as (ND & _). exact ND.
Qed.

Lemma group_by_genre_perm (books : list Book) :
  Permutation (concat (map snd (group_by_genre books))) books.
Proof.
  unfold group_by_genre.
  induction books as [|book books IH] using rev_ind; [reflexivity|].
  rewrite fold_left_app. cbn [fold_left].
  rewrite append_to_genre_perm, IH. reflexivity.
Qed.

(** X4: the library page has one section per genre of the list it is given,
    each genre once; a section is never empty and holds, in the order of
    the list, exactly the entries of its genre. *)
Theorem group_by_genre_sections (books : list Book) :
  NoDup (map fst (group_by_genre books))
  /\ (forall book,
        In book books -> In (genre book) (map fst (group_by_genre books)))
  /\ (forall g section,
        In (g, section) (group_by_genre books) ->
        section <> []
        /\ section = filter (fun book => str_eqb (genre book) g) books).
Proof.
  split; [apply group_by_genre_NoDup|]. split; [|apply group_by_genre_spec].
  rewrite group_by_genre_keys.
  destruct (genre_counts_spec books) as (_ & _ & Hkeys & _). exact Hkeys.
Qed.

(** X5: grouping loses and repeats nothing: the sections, put end to end,
    are a rearrangement of the list; and the sections come in the order in
    which their genres first occur in the list. *)
Theorem group_by_genre_complete (books : list Book) :
  Permutation (concat (map snd (group_by_genre books))) books
  /\ (forall earlier g later,
        map fst (group_by_genre books) = earlier ++ g :: later ->
        exists before first after,
          books = before ++ first :: after /\ genre first = g
          /\ forall book, In book before -> In (genre book) earlier).
Proof.
  split.
  - apply group_by_genre_perm.
  - rewrite group_by_genre_keys.
    destruct (genre_counts_spec books) as (_ & _ & _ & Hord). exact Hord.
Qed.

(** ** Sorting, then grouping *)

Lemma StronglySorted_filter {A} (R : A -> A -> Prop) (p : A -> bool)
    (l : list A) :
  StronglySorted R l -> StronglySorted R (filter p l).
Proof.
  induction 1 as [|x l Hs IH Hf]; simpl; [constructor|].
  destruct (p x); [|exact IH].
  constructor; [exact IH|].
  rewrite Forall_forall in *. intros y Hy. apply filter_In in Hy.
  apply Hf. tauto.
Qed.

Lemma StronglySorted_app_inv {A} (R : A -> A -> Prop) (l1 l2 : list A) :
  StronglySorted R (l1 ++ l2) ->
  StronglySorted R l1
  /\ forall x y, In x l1 -> In y l2 -> R x y.
Proof.
  induction l1 as [|a l1 IH]; simpl; intros H.
  - split; [constructor | intros x y []].
  - apply StronglySorted_inv in H. destruct H as [Hs Hf].
    destruct (IH Hs) as [H1 H2]. rewrite Forall_forall in Hf. split.
    + constructor; [exact H1|]. rewrite Forall_forall. intros y Hy.
      apply Hf, in_or_app. auto.
    + intros x y [<-|Hx] Hy; [|auto]. apply Hf, in_or_app. auto.
Qed.

Lemma concat_sections_snoc (genres : list (str * list Book)) (g : str)
    (books : list Book) :
  concat (map snd (genres ++ [(g, books)]))
  = concat (map snd genres) ++ books.
Proof. rewrite map_app, concat_app. simpl. rewrite app_nil_r. reflexivity. Qed.

(** A list sorted by genre is cut into its sections without being
    rearranged. *)
Lemma group_by_genre_sorted (books : list Book) :
  StronglySorted (key_le genre) books ->
  concat (map snd (group_by_genre books)) = books.
Proof.
  induction books as [|book books IH] using rev_ind; [reflexivity|].
  intros Hs. apply StronglySorted_app_inv in Hs. destruct Hs as [Hs Hlast].
  specialize (IH Hs).
  pose proof (group_by_genre_NoDup books) as ND.
  pose proof (group_by_genre_spec books) as Hsec.
  unfold group_by_genre in *. rewrite fold_left_app. cbn [fold_left].
  set (genres := fold_left (fun genres book => append_to_genre book genres)
                   books []) in *.
  destruct (append_to_genre_spec book genres)
    as [[Hn Hc] | (before & bs & after & Hg & Hn & Hc)]; rewrite Hc.
  - rewrite concat_sections_snoc, IH. reflexivity.
  - destruct after as [|[g' bs'] after].
    + rewrite concat_sections_snoc. rewrite Hg, concat_sections_snoc in IH.
      rewrite <- IH, app_assoc. reflexivity.
    + exfalso.
      destruct (Hsec (genre book) bs) as [Hne Hf];
        [rewrite Hg; apply in_or_app; right; left; reflexivity|].
      destruct (Hsec g' bs') as [Hne' Hf'];
        [rewrite Hg; apply in_or_app; right; right; left; reflexivity|].
      destruct bs as [|b1 bs]; [congruence|].
      destruct bs' as [|b2 bs']; [congruence|].
      assert (genre b1 = genre book) as G1.
      { assert (In b1 (filter (fun b => str_eqb (genre b) (genre book)) books))
          as H by (rewrite <- Hf; left; reflexivity).
        apply filter_In in H. apply str_eqb_eq. tauto. }
      assert (genre b2 = g' /\ In b2 books) as [G2 I2].
      { assert (In b2 (filter (fun b => str_eqb (genre b) g') books))
          as H by (rewrite <- Hf'; left; reflexivity).
        apply filter_In in H. split; [apply str_eqb_eq|]; tauto. }
      assert (key_le genre b1 b2) as L1.
      { rewrite Hg in IH. rewrite map_app, concat_app in IH. simpl in IH.
        rewrite <- IH in Hs.
        assert (concat (map snd before)
                  ++ b1 :: bs ++ b2 :: bs' ++ concat (map snd after)
                = (concat (map snd before) ++ [b1])
                    ++ (bs ++ b2 :: bs' ++ concat (map snd after))) as Eq
          by (rewrite <- app_assoc; reflexivity).
        rewrite Eq in Hs. apply StronglySorted_app_inv in Hs.
        destruct Hs as [_ Hs]. apply Hs.
        - apply in_or_app. right; left; reflexivity.
        - apply in_or_app. right. left; reflexivity. }
      assert (key_le genre b2 book) as L2
        by (apply Hlast; [exact I2 | left; reflexivity]).
      unfold key_le in L1, L2. rewrite G1, G2 in *.
      pose proof (str_ltb_total _ _ L2 L1) as E.
      rewrite Hg, map_app in ND. cbn [map fst] in ND.
      apply NoDup_remove_2 in ND. apply ND. apply in_or_app. right.
      left. symmetry. exact E.
Qed.

Section LibraryPageFacts.
Context {py : PyLib}.

(** X6: on the library page every entry found by the search is shown once
    and nothing else is; every section holds entries of its own genre only,
    no genre has two sections, no section is empty, and inside a section
    the keys chosen for sorting never decrease. *)
Theorem library_page_sections (library : list Book)
    (search_query sort_by : str) :
  library <> [] ->
  exists sections,
    library_page library search_query sort_by = Some sections
    /\ Permutation (concat (map snd sections))
         (filtered_books library search_query)
    /\ NoDup (map fst sections)
    /\ (forall g section,
          In (g, section) sections ->
          section <> []
          /\ (forall book, In book section -> genre book = g)
          /\ StronglySorted (key_le (sort_key sort_by)) section).
Proof.
  intros Hne. unfold library_page.
  destruct library as [|first others] eqn:L; [congruence|]. rewrite <- L.
  set (found := filtered_books library search_query).
  set (key := sort_key sort_by).
  exists (group_by_genre (sorted key found)).
  pose proof (sorted_perm key found) as P.
  pose proof (sorted_strongly key found) as S.
  pose proof (group_by_genre_NoDup (sorted key found)) as ND.
  pose proof (group_by_genre_spec (sorted key found)) as Hsec.
  split; [reflexivity|]. split; [|split; [exact ND|]].
  - rewrite group_by_genre_perm. exact P.
  - intros g section Hin. destruct (Hsec g section Hin) as [Hn Hf].
    split; [exact Hn|]. split.
    + intros book Hb. rewrite Hf in Hb. apply filter_In in Hb.
      apply str_eqb_eq. tauto.
    + rewrite Hf. apply StronglySorted_filter, S.
Qed.

(** X7: when the page sorts by genre, which it does for every choice other
    than "Title" and "Author", the sections put end to end are the sorted
    list itself: the sections follow each other by ascending genre. *)
Theorem library_page_by_genre (library : list Book)
    (search_query sort_by : str) :
  sort_by <> lit "Title" -> sort_by <> lit "Author" ->
  forall sections,
    library_page library search_query sort_by = Some sections ->
    concat (map snd sections)
    = sorted genre (filtered_books library search_query)
    /\ StronglySorted (key_le genre) (concat (map snd sections)).
Proof.
  intros H1 H2 sections. unfold library_page, sort_key.
  apply str_eqb_neq in H1, H2. rewrite H1, H2.
  destruct library as [|first others] eqn:L; [discriminate|]. rewrite <- L.
  intros E. injection E as <-.
  pose proof (sorted_strongly genre (filtered_books library search_query))
    as S.
  rewrite (group_by_genre_sorted S). auto.
Qed.
End LibraryPageFacts.

Lemma library_page_sections_witness :
  exists sections,
    library_page sample_library (lit "an") (lit "Title") = Some sections
    /\ Permutation (concat (map snd sections))
         [sample_book "Cooking" "Ann Lee" "Food";
          sample_book "Baking" "Ann Lee" "Food"]
    /\ NoDup (map fst sections).
Proof.
  destruct (@library_page_sections cpython_ascii sample_library (lit "an")
              (lit "Title")) as (sections & E & P & ND & _);
    [discriminate|].
  exists sections. split; [exact E | split; [exact P | exact ND]].
Defined.

Lemma library_page_by_genre_witness :
  concat
    (map snd
       (group_by_genre (sorted genre (filtered_books sample_library []))))
  = sorted genre sample_library.
Proof.
  exact (proj1 (@library_page_by_genre cpython_ascii sample_library []
                  (lit "Genre") ltac:(discriminate) ltac:(discriminate)
                  _ eq_refl)).
Defined.

(** ** The recommendation page *)

Lemma get_recommendations_recommend (genre' : str) (library : list Book) :
  get_recommendations genre' library = recommend genre' library.
Proof.
  unfold get_recommendations, recommend. rewrite recommendations_loop.
  cbn [app]. do 2 f_equal. apply filter_ext. intros x. apply andb_true_r.
Qed.

Lemma favorite_genre_occurs (library : list Book) (favorite : str) :
  favorite_genre library = Some favorite ->
  exists book, In book library /\ genre book = favorite.
Proof.
  unfold favorite_genre. destruct library as [|book0 others] eqn:L;
    [discriminate|]. rewrite <- L.
  destruct (genre_counts library) as [|best rest] eqn:C; [discriminate|].
  intros E. injection E as <-.
  destruct (max_from_first rest best) as (cb & n & ca & E & _ & _).
  destruct (genre_counts_spec library) as (_ & _ & _ & Hord).
  rewrite C in Hord.
  destruct (Hord (map fst cb) (max_from best rest) (map fst ca))
    as (before & first & after & El & Ef & _).
  { rewrite E, map_app. reflexivity. }
  exists first. split; [|exact Ef]. rewrite El. apply in_or_app.
  right; left; reflexivity.
Qed.

Lemma deduplicated_fixed (books : list Book) :
  NoDup books -> deduplicated books = books.
Proof.
  induction 1 as [|book rest Hn Hd IH]; simpl; [reflexivity|].
  rewrite IH. f_equal.
  rewrite <- (filter_true rest) at 2. apply filter_ext_in.
  intros other Ho. apply negb_true_iff.
  destruct (book_eqb book other) eqn:E; [|reflexivity].
  apply book_eqb_eq in E. subst. contradiction.
Qed.

Lemma get_recommendations_found (genre' : str) (library : list Book)
    (book : Book) :
  In book library -> genre book = genre' ->
  get_recommendations genre' library <> [].
Proof.
  intros Hin G. rewrite get_recommendations_recommend. unfold recommend.
  assert (In book
            (deduplicated
               (filter (fun b => str_eqb (genre b) genre') library))) as H.
  { apply deduplicated_In, filter_In. split; [exact Hin|].
    apply str_eqb_eq, G. }
  destruct (deduplicated _); [destruct H | discriminate].
Qed.

(** X8: [get_recommendations] returns nothing exactly when the library has
    no entry of the genre, and applying it to its own result changes
    nothing. *)
Theorem get_recommendations_fixed (genre' : str) (library : list Book) :
  (get_recommendations genre' library = [] <->
   forall book, In book library -> genre book <> genre')
  /\ get_recommendations genre' (get_recommendations genre' library)
     = get_recommendations genre' library.
Proof.
  rewrite !get_recommendations_recommend. unfold recommend.
  set (wanted := fun book => str_eqb (genre book) genre').
  split.
  - split.
    + intros E book Hin G.
      apply (@get_recommendations_found genre' library book Hin G).
      rewrite get_recommendations_recommend. exact E.
    + intros H.
      destruct (deduplicated (filter wanted library)) as [|book rest] eqn:D;
        [reflexivity|].
      assert (In book (deduplicated (filter wanted library))) as Hin
        by (rewrite D; left; reflexivity).
      apply deduplicated_In, filter_In in Hin. destruct Hin as [Hin G].
      apply str_eqb_eq in G. destruct (H book Hin G).
  - set (found := firstn 3 (deduplicated (filter wanted library))).
    assert (filter wanted found = found) as F.
    { rewrite <- (filter_true found) at 2. apply filter_ext_in.
      intros book Hin. apply firstn_In, deduplicated_In, filter_In in Hin.
      tauto. }
    rewrite F, deduplicated_fixed
      by (apply firstn_NoDup, deduplicated_NoDup).
    apply firstn_all2. apply firstn_le_length.
Qed.

(** X9: for a library that is not empty the recommendation page always
    shows between one and three entries, all of the favorite genre and all
    from the library; the notice that no recommendation is available is
    never shown. *)
Theorem recommendations_page_columns (library : list Book) :
  library <> [] ->
  exists favorite recommendations,
    recommendations_page library = Columns favorite recommendations
    /\ favorite_genre library = Some favorite
    /\ 1 <= length recommendations <= 3
    /\ (forall book,
          In book recommendations ->
          genre book = favorite /\ In book library).
Proof.
  intros Hne. unfold recommendations_page.
  destruct (favorite_genre library) as [favorite|] eqn:F.
  2: { unfold favorite_genre in F.
       destruct library as [|book0 others] eqn:L; [congruence|].
       rewrite <- L in *.
       destruct (genre_counts library) as [|best rest] eqn:C;
         [|discriminate].
       destruct (genre_counts_spec library) as (_ & _ & Hkeys & _).
       rewrite C in Hkeys. destruct (Hkeys book0).
       rewrite L. left; reflexivity. }
  destruct (favorite_genre_occurs _ F) as (book & Hin & G).
  pose proof (@get_recommendations_found favorite library book Hin G)
    as Hfound.
  destruct (get_recommendations favorite library) as [|first rest] eqn:R;
    [congruence|].
  exists favorite, (first :: rest).
  split; [reflexivity|]. split; [reflexivity|]. split.
  - split; [simpl; lia|].
    rewrite <- R, get_recommendations_recommend. apply firstn_le_length.
  - intros b Hb. rewrite <- R, get_recommendations_recommend in Hb.
    apply firstn_In, deduplicated_In, filter_In in Hb.
    destruct Hb as [Hb Gb]. apply str_eqb_eq in Gb. auto.
Qed.

Lemma recommendations_page_columns_witness :
  recommendations_page sample_library
  = Columns (lit "Technology")
      [sample_book "Rust" "John Smith" "Technology";
       sample_book "Go" "Rob Pike" "Technology";
       sample_book "C" "Dennis Ritchie" "Technology"].
Proof.
  destruct (@recommendations_page_columns sample_library)
    as (favorite & recommendations & E & _); [discriminate|].
  reflexivity.
Defined.

(** ** Searching *)

Lemma filter_again {A} (p : A -> bool) (l : list A) :
  filter p (filter p l) = filter p l.
Proof.
  rewrite filter_twice. apply filter_ext. intros x. destruct (p x); reflexivity.
Qed.

Lemma insert_by_all (key : Book -> str) (book : Book) (after : list Book) :
  Forall (key_le key book) after -> insert_by key book after = book :: after.
Proof.
  intros H. apply insert_by_head. destruct H; constructor; assumption.
Qed.

Lemma filter_insert_by (key : Book -> str) (p : Book -> bool) (book : Book)
    (after : list Book) :
  StronglySorted (key_le key) after ->
  filter p (insert_by key book after)
  = if p book then insert_by key book (filter p after) else filter p after.
Proof.
  induction 1 as [|other rest Hs IH Hf]; simpl.
  - destruct (p book); reflexivity.
  - destruct (str_ltb (key other) (key book)) eqn:L.
    + cbn [filter]. rewrite IH.
      destruct (p book), (p other); try reflexivity.
      simpl. rewrite L. reflexivity.
    + assert (Forall (key_le key book) (other :: rest)) as All.
      { constructor; [exact L|]. rewrite Forall_forall in *.
        intros z Hz. apply (@key_le_trans key book other z); [exact L|].
        apply Hf, Hz. }
      cbn [filter]. destruct (p book); [|reflexivity].
      symmetry. apply insert_by_all.
      change (Forall (key_le key book) (filter p (other :: rest))).
      rewrite Forall_forall in *. intros z Hz. apply filter_In in Hz.
      apply All. tauto.
Qed.

(** A stable sort and a filter can be applied in either order. *)
Lemma sorted_filter (key : Book -> str) (p : Book -> bool)
    (books : list Book) :
  filter p (sorted key books) = sorted key (filter p books).
Proof.
  induction books as [|book rest IH]; [reflexivity|].
  cbn [sorted fold_right]. fold (sorted key rest).
  rewrite filter_insert_by by apply sorted_strongly.
  cbn [filter]. destruct (p book); [|exact IH].
  cbn [sorted fold_right]. fold (sorted key (filter p rest)).
  rewrite IH. reflexivity.
Qed.

Section SearchFacts.
Context {py : PyLib}.

(** X10: a search keeps entries of the library in the order of the library
    and drops the others; searching the result again with the same query
    changes nothing, and sorting before or after the search gives the same
    list. *)
Theorem search_composes (library : list Book) (search_query : str)
    (key : Book -> str) :
  subsequence (filtered_books library search_query) library
  /\ filtered_books (filtered_books library search_query) search_query
     = filtered_books library search_query
  /\ filtered_books (sorted key library) search_query
     = sorted key (filtered_books library search_query).
Proof.
  destruct search_query as [|c q]; cbn [filtered_books].
  - split; [|split; reflexivity].
    induction library; [apply subsequence_nil | now apply subsequence_keep].
  - split; [apply subsequence_filter|].
    split; [apply filter_again | apply sorted_filter].
Qed.
End SearchFacts.

(** ** The address of a thumbnail *)

Lemma replace_from_absent (old new s : str) :
  contains s old = false -> replace_from old new 0 s = s.
Proof.
  induction s as [|c s IH]; [reflexivity|].
  cbn [contains replace_from]. intros H. apply orb_false_iff in H.
  destruct H as [H1 H2]. rewrite H1, (IH H2). reflexivity.
Qed.

(** What the output of a replacement starts with, the input started with,
    as far as the letter [h] is not involved. *)
Lemma replace_from_startswith (p s : str) :
  ~ In 104%N p ->
  startswith p (replace_from (lit "http://") (lit "https://") 0 s) = true ->
  startswith p s = true.
Proof.
  revert s. induction p as [|x p IH]; intros s Hp; [reflexivity|].
  destruct s as [|c s]; [simpl; discriminate|].
  cbn [replace_from].
  destruct (startswith (lit "http://") (c :: s)).
  - change (lit "https://") with (104%N :: lit "ttps://").
    cbn [app startswith]. intros H. apply andb_true_iff in H.
    destruct H as [H _]. apply N.eqb_eq in H. destruct Hp. left. auto.
  - cbn [startswith]. intros H. apply andb_true_iff in H.
    destruct H as [H1 H2]. rewrite H1. simpl.
    apply IH; [|exact H2]. intros Hin. apply Hp. right. exact Hin.
Qed.

Lemma replace_from_clean (s : str) (skip : nat) :
  contains (replace_from (lit "http://") (lit "https://") skip s)
    (lit "http://") = false.
Proof.
  revert skip. induction s as [|c s IH]; intros skip; [reflexivity|].
  cbn [replace_from]. destruct skip as [|k]; [|apply IH].
  destruct (startswith (lit "http://") (c :: s)) eqn:M.
  - specialize (IH (length (lit "http://") - 1)).
    set (rest := replace_from (lit "http://") (lit "https://")
                   (length (lit "http://") - 1) s) in *.
    change (lit "https://" ++ rest)
      with (104 :: 116 :: 116 :: 112 :: 115 :: 58 :: 47 :: 47 :: rest)%N.
    change (lit "http://") with [104; 116; 116; 112; 58; 47; 47]%N in *.
    cbn [contains startswith N.eqb Pos.eqb andb orb]. exact IH.
  - cbn [contains]. rewrite IH, orb_false_r.
    destruct (startswith (lit "http://")
                (c :: replace_from (lit "http://") (lit "https://") 0 s))
      eqn:S; [|reflexivity].
    change (lit "http://") with (104%N :: lit "ttp://") in S, M.
    cbn [startswith] in S, M. apply andb_true_iff in S. destruct S as [S1 S2].
    assert (startswith (lit "ttp://") s = true) as T.
    { apply replace_from_startswith; [|exact S2].
      simpl. intros H. repeat (destruct H as [H|H]; [discriminate H|]).
      exact H. }
    rewrite S1, T in M. discriminate.
Qed.

(** X11: the address handed to the image widget never contains "http://";
    an address without "http://" is handed over unchanged, and no image is
    requested for an entry without a thumbnail or with an empty one. *)
Theorem thumbnail_url_https (thumbnail : option str) :
  (forall url,
      thumbnail_url thumbnail = Some url ->
      contains url (lit "http://") = false)
  /\ (forall address,
        thumbnail = Some address -> address <> [] ->
        contains address (lit "http://") = false ->
        thumbnail_url thumbnail = Some address)
  /\ (thumbnail_url thumbnail = None <->
      thumbnail = None \/ thumbnail = Some []).
Proof.
  split; [|split].
  - intros url E.
    destruct thumbnail as [[|c s]|]; [discriminate E | | discriminate E].
    change (Some (replace_from (lit "http://") (lit "https://") 0 (c :: s))
            = Some url) in E.
    assert (url = replace_from (lit "http://") (lit "https://") 0 (c :: s))
      as -> by congruence.
    apply replace_from_clean.
  - intros address -> Hne H. destruct address as [|c s]; [congruence|].
    change (Some (replace_from (lit "http://") (lit "https://") 0 (c :: s))
            = Some (c :: s)).
    f_equal. apply replace_from_absent, H.
  - destruct thumbnail as [[|c s]|]; simpl; split; auto;
      try discriminate.
    intros [H|H]; discriminate.
Qed.

Lemma thumbnail_url_https_witness :
  thumbnail_url (Some (lit "http://books.google.com/books/content?id=1"))
  = Some (lit "https://books.google.com/books/content?id=1")
  /\ thumbnail_url (Some document_icon) = Some document_icon.
Proof.
  destruct (thumbnail_url_https (Some document_icon)) as (_ & H & _).
  split; [reflexivity|].
  apply H; [reflexivity | discriminate | reflexivity].
Defined.

(** ** More on the extractor *)

Section ExtractorMore.
Context {py : PyLib}.

(** X12: of the pages only the first is read: two readers with the same
    metadata, the same first page and as many pages give the same result,
    whatever the other pages hold, even pages whose text cannot be
    extracted. *)
Theorem extract_first_page_only (path : str) (reader reader' : PdfReader)
    (page : result str) (others others' : list (result str)) :
  reader_metadata reader = reader_metadata reader' ->
  reader_pages reader = Ok (page :: others) ->
  reader_pages reader' = Ok (page :: others') ->
  length others = length others' ->
  extract_pdf_metadata path (Ok reader) = extract_pdf_metadata path (Ok reader').
Proof.
  intros Hm Hp Hp' Hl.
  unfold extract_pdf_metadata, extract_try, first_page_text. cbn [bind].
  rewrite Hm, Hp, Hp'.
  destruct (reader_metadata reader') as [info|e]; [|reflexivity].
  cbn [bind length Nat.ltb Nat.leb nth_error].
  destruct page as [text|e]; [|reflexivity]. cbn [bind].
  destruct info as [info|]; [|reflexivity]. cbn [bind length].
  rewrite Hl. reflexivity.
Qed.

(** X13: the preview never has more than 500 characters; when the PDF is
    read without error it is the beginning of the first-page text, and all
    of it when that text has at most 500 characters. *)
Theorem preview_bounded (path : str) (opened : result PdfReader) :
  length (md_content_preview (fst (extract_pdf_metadata path opened))) <= 500
  /\ (forall reader info text,
        opened = Ok reader ->
        reader_metadata reader = Ok (Some info) ->
        first_page_text reader = Ok text ->
        let preview :=
          md_content_preview (fst (extract_pdf_metadata path opened)) in
        (exists rest, text = preview ++ rest)
        /\ (length text <= 500 -> preview = text)).
Proof.
  split.
  - unfold extract_pdf_metadata.
    destruct (extract_try path opened) as [m|e] eqn:E; [|simpl; lia].
    destruct (extract_try_returns _ _ E)
      as (reader & info & text & ps & -> & Hm & Ht & Hp).
    pose proof (extract_try_ok path _ Hm Ht Hp) as E'. rewrite E in E'.
    assert (md_content_preview m = firstn 500 text) as P
      by (destruct (is_resume text); injection E' as ->; reflexivity).
    cbn [fst]. rewrite P. apply firstn_le_length.
  - intros reader info text -> Hm Ht preview.
    destruct (first_page_text_pages _ Ht) as [ps Hp].
    assert (preview = firstn 500 text) as ->.
    { unfold preview, extract_pdf_metadata.
      rewrite (extract_try_ok path _ Hm Ht Hp).
      destruct (is_resume text); reflexivity. }
    split.
    + exists (skipn 500 text). symmetry. apply firstn_skipn.
    + apply firstn_all2.
Qed.

Lemma strip_within (line : str) (c : char) : In c (strip line) -> In c line.
Proof.
  intros H. destruct (strip_spec line) as (left & right & E & _).
  rewrite E. apply in_or_app. right. apply in_or_app. left. exact H.
Qed.

(** X14: the author of a resume is either the embedded author (or
    "Unknown"), or a name read from the page: then it is not empty, holds
    no digit, and neither starts nor ends with white space. *)
Theorem resume_author_clean (path : str) (reader : PdfReader)
    (info : DocumentInformation) (text : str) :
  reader_metadata reader = Ok (Some info) ->
  first_page_text reader = Ok text ->
  is_resume text = true ->
  let inferred := md_author (fst (extract_pdf_metadata path (Ok reader))) in
  inferred = if_else (info_author info) (lit "Unknown")
  \/ (inferred <> []
      /\ (forall c, In c inferred -> isdigit c = false)
      /\ (forall c rest, inferred = c :: rest -> isspace c = false)
      /\ (forall c rest, inferred = rest ++ [c] -> isspace c = false)).
Proof.
  intros Hm Ht Hr inferred.
  destruct (first_page_text_pages _ Ht) as [ps Hp].
  assert (inferred
          = scan_lines (firstn 3 (split_sep 10%N text))
              (if_else (info_author info) (lit "Unknown"))) as ->.
  { unfold inferred, extract_pdf_metadata.
    rewrite (extract_try_ok path _ Hm Ht Hp), Hr. reflexivity. }
  destruct (scan_lines_spec (firstn 3 (split_sep 10%N text))
              (if_else (info_author info) (lit "Unknown")))
    as [(i & line & _ & Hl & _ & ->) | [_ ->]]; [right | left; reflexivity].
  apply name_like_iff in Hl. destruct Hl as [Htok Hdig].
  destruct (strip_spec line) as (left & right & _ & _ & _ & Hfirst & Hlast).
  split; [|split; [|split]].
  - apply split_strip. destruct (split line); [simpl in Htok; lia|].
    discriminate.
  - intros c Hc. apply Hdig, strip_within, Hc.
  - exact Hfirst.
  - exact Hlast.
Qed.
End ExtractorMore.

Lemma extract_first_page_only_witness :
  extract_pdf_metadata (lit "uploads/plan.pdf")
    (Ok {| reader_metadata := reader_metadata business_plan;
           reader_pages :=
             Ok [Ok (lit "Programming for Business");
                 Raise (External (lit "unsupported encoding"))] |})
  = extract_pdf_metadata (lit "uploads/plan.pdf")
      (Ok (sample_reader (Some (lit "Plan")) (Some (lit "A. Writer"))
             [lit "Programming for Business"; lit "Chapter 1"])).
Proof.
  apply (@extract_first_page_only cpython_ascii (lit "uploads/plan.pdf") _ _
           (Ok (lit "Programming for Business"))
           [Raise (External (lit "unsupported encoding"))]
           [Ok (lit "Chapter 1")]); reflexivity.
Defined.

Lemma resume_author_clean_witness :
  md_author (fst (extract_pdf_metadata (lit "uploads/cv.pdf") (Ok jane_cv)))
  <> [].
Proof.
  destruct (@resume_author_clean cpython_ascii (lit "uploads/cv.pdf") jane_cv
              _ _ eq_refl eq_refl eq_refl) as [E | [Hne _]].
  - vm_compute in E. discriminate E.
  - exact Hne.
Defined.

(** ** More on the classifier *)

Section ClassifierMore.
Context {py : PyLib} {secrets : Secrets}.

Lemma extract_shown (path : str) (opened : result PdfReader) :
  requested (snd (extract_pdf_metadata path opened)) = []
  /\ length (reported (snd (extract_pdf_metadata path opened))) <= 1.
Proof.
  unfold extract_pdf_metadata.
  destruct (extract_try path opened); simpl; auto.
Qed.

Lemma fetch_shown (catalog : str -> result Volumes)
    (title author content_preview : str) (resume : bool) :
  requested
    (snd (fetch_book_info catalog title author content_preview resume))
  = (if resume then [] else [catalog_url title author])
  /\ length
       (reported
          (snd (fetch_book_info catalog title author content_preview resume)))
     <= 1.
Proof.
  unfold fetch_book_info. destruct resume; [simpl; auto|].
  destruct (catalog_try title author (catalog (catalog_url title author)))
    as [[b|]|e]; simpl; auto.
Qed.

Lemma requested_app (a b : list event) :
  requested (a ++ b) = requested a ++ requested b.
Proof. apply flat_map_app. Qed.

Lemma reported_app (a b : list event) :
  reported (a ++ b) = reported a ++ reported b.
Proof. apply flat_map_app. Qed.

Lemma book_data_shown (catalog : str -> result Volumes) (path : str)
    (opened : result PdfReader) :
  snd (book_data catalog path opened)
  = snd (extract_pdf_metadata path opened)
      ++ snd (fetch_book_info catalog
                (md_title (fst (extract_pdf_metadata path opened)))
                (md_author (fst (extract_pdf_metadata path opened)))
                (md_content_preview (fst (extract_pdf_metadata path opened)))
                (md_is_resume (fst (extract_pdf_metadata path opened)))).
Proof.
  unfold book_data.
  destruct (extract_pdf_metadata path opened) as [m shown]. cbn [fst snd].
  destruct (fetch_book_info catalog (md_title m) (md_author m)
              (md_content_preview m) (md_is_resume m)).
  reflexivity.
Qed.

(** X15: an upload sends no request for a resume and exactly one
    otherwise, for the title and author the extractor returned; a PDF that
    cannot be read is still looked up, under its base name and "Unknown".
    At most two errors are reported. *)
Theorem upload_requests (catalog : str -> result Volumes) (path : str)
    (opened : result PdfReader) :
  let m := fst (extract_pdf_metadata path opened) in
  requested (snd (book_data catalog path opened))
  = (if md_is_resume m then []
     else [catalog_url (md_title m) (md_author m)])
  /\ length (reported (snd (book_data catalog path opened))) <= 2
  /\ (forall e,
        extractor_raises opened e ->
        requested (snd (book_data catalog path opened))
        = [catalog_url (stem path) (lit "Unknown")]).
Proof.
  intros m.
  assert (requested (snd (book_data catalog path opened))
          = (if md_is_resume m then []
             else [catalog_url (md_title m) (md_author m)])) as R.
  { rewrite book_data_shown, requested_app.
    rewrite (proj1 (extract_shown path opened)). cbn [app].
    apply fetch_shown. }
  split; [exact R|]. split.
  - rewrite book_data_shown, reported_app, length_app.
    pose proof (proj2 (extract_shown path opened)).
    pose proof (proj2 (fetch_shown catalog (md_title m) (md_author m)
                         (md_content_preview m) (md_is_resume m))).
    fold m. lia.
  - intros e H. rewrite R. unfold m, extract_pdf_metadata.
    apply (extract_try_raises path) in H. rewrite H. reflexivity.
Qed.

Lemma replace_clean (a b : char) (s : str) : a <> b -> ~ In a (replace a b s).
Proof.
  intros Hab H. unfold replace in H. apply in_map_iff in H.
  destruct H as (c & E & _). destruct (N.eqb c a) eqn:C.
  - congruence.
  - apply N.eqb_neq in C. congruence.
Qed.

(** X16: the address requested from the catalog holds no space, whatever
    the title and the author, as long as the key holds none. *)
Theorem catalog_url_no_space (title author : str) :
  ~ In 32%N GOOGLE_BOOKS_API_KEY ->
  ~ In 32%N (catalog_url title author).
Proof.
  intros Hk H. unfold catalog_url in H.
  apply in_app_or in H. destruct H as [H|H].
  - simpl in H. repeat (destruct H as [H|H]; [discriminate H|]). exact H.
  - apply in_app_or in H. destruct H as [H|H].
    + apply replace_clean in H; [exact H | discriminate].
    + apply in_app_or in H. destruct H as [H|H]; [|auto].
      simpl in H. repeat (destruct H as [H|H]; [discriminate H|]). exact H.
Qed.

(** X17: of the catalog's answer only the first item counts: the result
    is the one the first item alone would give. *)
Theorem catalog_first_item (catalog : str -> result Volumes)
    (title author content_preview : str) (data : Volumes) (first : Item)
    (others : list Item) :
  catalog (catalog_url title author) = Ok data ->
  items data = Some (first :: others) ->
  fetch_book_info catalog title author content_preview false
  = fetch_book_info (fun _ => Ok {| items := Some [first] |})
      title author content_preview false.
Proof.
  intros Hc Hi. unfold fetch_book_info, catalog_try.
  rewrite Hc. cbn [bind items]. rewrite Hi. reflexivity.
Qed.

(** X18: a first item with its volume information, whose author and
    category lists are absent or not empty, decides the entry: absent
    fields are filled with the local title and author, "Uncategorized"
    and "No description available"; a thumbnail may be absent; the
    content preview plays no part and no error is reported. *)
Theorem catalog_match (catalog : str -> result Volumes)
    (title author content_preview : str) (data : Volumes) (first : Item)
    (others : list Item) (v : VolumeInfo) :
  catalog (catalog_url title author) = Ok data ->
  items data = Some (first :: others) ->
  volumeInfo first = Some v ->
  vi_authors v <> Some [] ->
  vi_categories v <> Some [] ->
  fetch_book_info catalog title author content_preview false
  = ({| bi_title := match vi_title v with
                    | Some found => found
                    | None => title
                    end;
        bi_author := match vi_authors v with
                     | Some (found :: _) => found
                     | _ => author
                     end;
        bi_genre := match vi_categories v with
                    | Some (found :: _) => found
                    | _ => lit "Uncategorized"
                    end;
        bi_description := match vi_description v with
                          | Some found => found
                          | None => lit "No description available"
                          end;
        bi_thumbnail := match vi_imageLinks v with
                        | Some links => il_thumbnail links
                        | None => None
                        end |},
     [HttpGet (catalog_url title author)]).
Proof.
  intros Hc Hi Hv Ha Hg. unfold fetch_book_info, catalog_try.
  rewrite Hc. cbn [bind]. rewrite Hi, Hv. cbn [subscript bind].
  destruct (vi_authors v) as [[|a al]|]; [congruence| |];
    destruct (vi_categories v) as [[|c cl]|]; try congruence;
    cbn [get item0 bind];
    destruct (vi_title v), (vi_description v), (vi_imageLinks v);
    reflexivity.
Qed.

(** X19: a first item that cannot be read makes the lookup count as
    failed, whatever else the answer holds: without volume information a
    [KeyError] is reported, with an empty author or category list an
    [IndexError], and the keyword buckets decide. *)
Theorem catalog_item_unreadable (catalog : str -> result Volumes)
    (title author content_preview : str) (data : Volumes) (first : Item)
    (others : list Item) :
  catalog (catalog_url title author) = Ok data ->
  items data = Some (first :: others) ->
  (volumeInfo first = None ->
   fetch_book_info catalog title author content_preview false
   = (categorize title author content_preview,
      [HttpGet (catalog_url title author);
       StError (lit "Error fetching book info: ")
         (KeyError (lit "volumeInfo"))]))
  /\ (forall v,
        volumeInfo first = Some v ->
        vi_authors v = Some [] \/ vi_categories v = Some [] ->
        fetch_book_info catalog title author content_preview false
        = (categorize title author content_preview,
           [HttpGet (catalog_url title author);
            StError (lit "Error fetching book info: ") IndexError])).
Proof.
  intros Hc Hi. unfold fetch_book_info, catalog_try.
  rewrite Hc. cbn [bind]. rewrite Hi. split.
  - intros Hv. rewrite Hv. reflexivity.
  - intros v Hv H. rewrite Hv. cbn [subscript bind].
    destruct H as [H|H]; rewrite H; cbn [get item0 bind]; [reflexivity|].
    destruct (vi_authors v) as [[|a al]|]; reflexivity.
Qed.

(** X20: without a catalog match an entry has one of six genres, and its
    thumbnail follows from the genre: the resume icon for "Resume/CV", the
    document icon for "Document", none for the four keyword genres. *)
Theorem local_genres (catalog : str -> result Volumes)
    (title author content_preview : str) (resume : bool) :
  resume = true
  \/ lookup_unusable title author (catalog (catalog_url title author)) ->
  let b := fst (fetch_book_info catalog title author content_preview resume)
  in
  (resume = true /\ bi_genre b = lit "Resume/CV"
   /\ bi_thumbnail b = Some resume_icon)
  \/ (resume = false /\ bi_genre b = lit "Document"
      /\ bi_thumbnail b = Some document_icon)
  \/ (resume = false
      /\ In (bi_genre b)
           [lit "Business"; lit "Technology"; lit "Science"; lit "Education"]
      /\ bi_thumbnail b = None).
Proof.
  intros H b. destruct resume.
  - left. repeat split.
  - destruct H as [H|H]; [discriminate|]. right.
    unfold b. rewrite (fetch_unusable _ _ H). unfold categorize.
    destruct (first_category categories (lower content_preview))
      as [category|] eqn:F.
    + right. repeat split. cbn [bi_genre].
      revert F. unfold categories, first_category.
      change (any_keyword_in (lower content_preview) []) with false.
      repeat match goal with
             | |- context [if ?c then _ else _] => destruct c
             end; intros F;
        first [discriminate F | injection F as <-; simpl; tauto].
    + left. repeat split.
Qed.
End ClassifierMore.

Lemma catalog_url_no_space_witness :
  ~ In 32%N (catalog_url (lit "War and Peace") (lit "Leo Tolstoy")).
Proof.
  apply (@catalog_url_no_space sample_secrets).
  simpl. intros [H|H]; [discriminate H | exact H].
Defined.

Lemma catalog_first_item_witness :
  fetch_book_info
    (catalog_answers [{| volumeInfo := Some sample_volume |};
                      {| volumeInfo := None |}])
    (lit "Rust") (lit "Unknown") (lit "about business") false
  = fetch_book_info
      (fun _ => Ok {| items := Some [{| volumeInfo := Some sample_volume |}] |})
      (lit "Rust") (lit "Unknown") (lit "about business") false.
Proof.
  apply (@catalog_first_item cpython_ascii sample_secrets
           (catalog_answers [{| volumeInfo := Some sample_volume |};
                             {| volumeInfo := None |}])
           (lit "Rust") (lit "Unknown") (lit "about business")
           _ _ [{| volumeInfo := None |}] eq_refl eq_refl).
Defined.

Lemma catalog_match_witness :
  fst (fetch_book_info
         (catalog_answers [{| volumeInfo := Some sample_volume |}])
         (lit "Rust") (lit "Unknown") (lit "about business") false)
  = {| bi_title := lit "The Rust Book";
       bi_author := lit "Steve Klabnik";
       bi_genre := lit "Uncategorized";
       bi_description := lit "No description available";
       bi_thumbnail := Some (lit "http://books.google.com/books/content?id=1") |}.
Proof.
  rewrite (@catalog_match cpython_ascii sample_secrets
             (catalog_answers [{| volumeInfo := Some sample_volume |}])
             (lit "Rust") (lit "Unknown") (lit "about business")
             _ _ [] sample_volume eq_refl eq_refl eq_refl);
    [reflexivity | discriminate | discriminate].
Defined.

Lemma catalog_item_unreadable_witness :
  fetch_book_info (catalog_answers [{| volumeInfo := None |}])
    (lit "Rust") (lit "Unknown") (lit "about business") false
  = ({| bi_title := lit "Rust";
        bi_author := lit "Unknown";
        bi_genre := lit "Business";
        bi_description := lit "about business...";
        bi_thumbnail := None |},
     [HttpGet (lit "https://www.googleapis.com/books/v1/volumes?q=Rust+Unknown&key=k");
      StError (lit "Error fetching book info: ") (KeyError (lit "volumeInfo"))]).
Proof.
  destruct (@catalog_item_unreadable cpython_ascii sample_secrets
              (catalog_answers [{| volumeInfo := None |}])
              (lit "Rust") (lit "Unknown") (lit "about business")
              _ _ [] eq_refl eq_refl) as [H _].
  rewrite (H eq_refl). reflexivity.
Defined.

Lemma local_genres_witness :
  bi_thumbnail
    (fst (fetch_book_info catalog_down (lit "Plan") (lit "A. Writer")
            (lit "Programming for Business") false))
  = None.
Proof.
  destruct (@local_genres cpython_ascii sample_secrets catalog_down
              (lit "Plan") (lit "A. Writer") (lit "Programming for Business")
              false (or_intror (request_fails _ _ _)))
    as [(R & _) | [(_ & G & _) | (_ & _ & T)]].
  - discriminate R.
  - vm_compute in G. discriminate G.
  - exact T.
Defined.

(** ** An upload, from the page to the entry *)

Section UploadFacts.
Context {py : PyLib} {secrets : Secrets}.

End UploadFacts.


Lemma sorted_idempotent_witness :
  sorted title
    [sample_book "Baking" "Ann Lee" "Food";
     sample_book "Cooking" "Ann Lee" "Food"]
  = [sample_book "Baking" "Ann Lee" "Food";
     sample_book "Cooking" "Ann Lee" "Food"].
Proof.
  apply (proj1 (sorted_idempotent title _)).
  repeat constructor.
Defined.

Lemma preview_bounded_witness :
  md_content_preview
    (fst (extract_pdf_metadata (lit "uploads/plan.pdf") (Ok business_plan)))
  = lit "Programming for Business".
Proof.
  apply (proj2 (@preview_bounded cpython_ascii (lit "uploads/plan.pdf")
                  (Ok business_plan))
           business_plan _ (lit "Programming for Business")
           eq_refl eq_refl eq_refl).
  vm_compute. repeat constructor.
Defined.
